(** * Audio Ingestion API (src/audio.py): a shallow embedding and its properties

    The handlers of [audio.py] are modelled as functions on an explicit
    world: the process working directory, a filesystem tree and the log
    sink.  Exceptions are values of a sum, the handlers run in a small
    state-and-exception monad.

    Conventions of the model:
    - Python [str] is [string] (a sequence of bytes, UTF-8 for text);
      [bytes] is [list byte]; Python [int] is [Z].
    - [os.path] is [posixpath]: the separator is [/], there is no
      alternative separator and no drive.
    - The filesystem has directories and regular files only (no symbolic
      links, no permissions, no quotas, a device that is never full); a
      path names at most one node.  An entry name is at most 255 bytes
      and a path at most 4095 bytes long, the limits of Linux: nothing
      longer is created.
    - The float [n / (1024 * 1024)] is exact for every byte count below
      2^53 and is kept as that quotient; [round(_, 2)] and the [.2f]
      format round the exact value to the nearest hundredth, ties to the
      even one, and a rounded float is its number of hundredths, a [Z]. *)

From Stdlib Require Import ZArith Ascii List Lia.
From Stdlib Require String.
From Stdlib Require Import Strings.Byte.
From stdpp Require Import base option list strings pretty gmap fin_maps.

Local Open Scope Z_scope.

(** ** Python strings *)

Module Py.

Definition is_upper (c : ascii) : bool :=
  let n := nat_of_ascii c in (65 <=? n)%nat && (n <=? 90)%nat.

Definition lower_char (c : ascii) : ascii :=
  if is_upper c then ascii_of_nat (nat_of_ascii c + 32) else c.

(** [s.lower()].  The model lowers the 26 ASCII capitals only.  The
    full Unicode mapping agrees with it on whether the result is one of
    the supported formats: the only other characters that lower to an
    ASCII letter give [k] and [i], which occur in no supported format. *)
Fixpoint lower (s : string) : string :=
  match s with
  | EmptyString => EmptyString
  | String c s' => String (lower_char c) (lower s')
  end.

(** [s.lstrip(c)] for a single character [c]. *)
Fixpoint lstrip (c : ascii) (s : string) : string :=
  match s with
  | String a s' => if Ascii.eqb a c then lstrip c s' else s
  | EmptyString => EmptyString
  end.

(** [s.rfind(c)] for a single character, counted from offset [i]:
    the index of the last occurrence, or -1. *)
Fixpoint rfind_from (c : ascii) (s : string) (i : Z) : Z :=
  match s with
  | EmptyString => -1
  | String a s' =>
      let r := rfind_from c s' (i + 1) in
      if 0 <=? r then r else if Ascii.eqb a c then i else -1
  end.

Definition rfind (c : ascii) (s : string) : Z := rfind_from c s 0.

(** [s[:i]] and [s[i:]] for [0 <= i]. *)
Fixpoint take (n : nat) (s : string) : string :=
  match n, s with
  | S n', String a s' => String a (take n' s')
  | _, _ => EmptyString
  end.

Fixpoint drop (n : nat) (s : string) : string :=
  match n, s with
  | S n', String _ s' => drop n' s'
  | _, _ => s
  end.

Definition slice_to (i : Z) (s : string) : string := take (Z.to_nat i) s.
Definition slice_from (i : Z) (s : string) : string := drop (Z.to_nat i) s.
Definition slice (i j : Z) (s : string) : string := slice_to (j - i) (slice_from i s).

Definition startswith (c : ascii) (s : string) : bool :=
  match s with
  | String a _ => Ascii.eqb a c
  | EmptyString => false
  end.

Fixpoint endswith (c : ascii) (s : string) : bool :=
  match s with
  | EmptyString => false
  | String a EmptyString => Ascii.eqb a c
  | String _ s' => endswith c s'
  end.

Fixpoint contains (c : ascii) (s : string) : bool :=
  match s with
  | EmptyString => false
  | String a s' => Ascii.eqb a c || contains c s'
  end.

(** [sep.join(l)]. *)
Fixpoint join (sep : string) (l : list string) : string :=
  match l with
  | [] => ""
  | [x] => x
  | x :: l' => x +:+ sep +:+ join sep l'
  end.

(** [s.split(c)] for a single character: never empty. *)
Fixpoint split (c : ascii) (s : string) : list string :=
  match s with
  | EmptyString => [""]
  | String a s' =>
      if Ascii.eqb a c then "" :: split c s'
      else match split c s' with
           | x :: l => String a x :: l
           | [] => [String a ""]
           end
  end.

Definition backslash : ascii := ascii_of_nat 92.
Definition single_quote : ascii := ascii_of_nat 39.
Definition double_quote : ascii := ascii_of_nat 34.

(** [repr(s)] of a string: single quotes unless the string has a single
    quote and no double quote; the backslash and the chosen quote are
    escaped.  Control and non-ASCII characters, which [repr] writes as
    escapes, are passed through. *)
Fixpoint escape (q : ascii) (s : string) : string :=
  match s with
  | EmptyString => EmptyString
  | String a s' =>
      if Ascii.eqb a backslash || Ascii.eqb a q
      then String backslash (String a (escape q s'))
      else String a (escape q s')
  end.

Definition repr (s : string) : string :=
  let q : ascii :=
    if contains single_quote s && negb (contains double_quote s)
    then double_quote else single_quote in
  String q (escape q s) +:+ String q EmptyString.

(** [len(b)] of a bytes object. *)
Definition len {A} (l : list A) : Z := Z.of_nat (length l).

(** The floats of the module are quotients of a byte count by 2^20,
    which double precision holds exactly for every count below 2^53: a
    float is kept as the quotient it is. *)
Record float : Type := Float { numerator : Z; denominator : Z }.

(** [a / b] on integers. *)
Definition truediv (a b : Z) : float := Float a b.

(** The decimal the exact quotient [num / den] rounds to at two places,
    in hundredths, for [0 < den]: nearest, ties to even. *)
Definition round_hundredths (num den : Z) : Z :=
  let q := (100 * num) / den in
  let r := (100 * num) mod den in
  if 2 * r <? den then q
  else if den <? 2 * r then q + 1
  else if Z.even q then q else q + 1.

(** [round(x, 2)], in hundredths. *)
Definition round_2 (x : float) : Z :=
  round_hundredths (numerator x) (denominator x).

Definition two_digits (n : Z) : string :=
  if n <? 10 then "0" +:+ pretty n else pretty n.

(** [f"{x:.2f}"] for a float that is not negative. *)
Definition format_2f (x : float) : string :=
  let h := round_2 x in
  pretty (h / 100) +:+ "." +:+ two_digits (h mod 100).

End Py.

(** ** posixpath *)

Module posixpath.

Definition sep : ascii := "/".
Definition extsep : ascii := ".".

(** [os.path.join(a, b)] with one tail. *)
Definition join (a b : string) : string :=
  if Py.startswith sep b then b
  else if String.eqb a "" || Py.endswith sep a then a +:+ b
  else a +:+ String sep "" +:+ b.

(** [os.path.basename(p)]. *)
Definition basename (p : string) : string :=
  let i := Py.rfind sep p + 1 in
  Py.slice_from i p.

(** The loop of [genericpath._splitext] that skips the leading dots of
    the last component: [true] as soon as a character of
    [p[filenameIndex:dotIndex]] is not a dot. *)
Fixpoint has_non_dot (between : string) : bool :=
  match between with
  | EmptyString => false
  | String a s' => if negb (Ascii.eqb a extsep) then true else has_non_dot s'
  end.

(** [os.path.splitext(p)]. *)
Definition splitext (p : string) : string * string :=
  let sepIndex := Py.rfind sep p in
  let dotIndex := Py.rfind extsep p in
  if (sepIndex <? dotIndex) && has_non_dot (Py.slice (sepIndex + 1) dotIndex p)
  then (Py.slice_to dotIndex p, Py.slice_from dotIndex p)
  else (p, "").

End posixpath.

(** ** Exceptions *)

Inductive exn : Type :=
| OSError (errno : Z) (strerror : string) (filename : string)
| ValueError (msg : string)
| Exception (msg : string)
| HTTPException (status_code : Z) (detail : string).

(** [str(e)]. *)
Definition str (e : exn) : string :=
  match e with
  | OSError n m f => "[Errno " +:+ pretty n +:+ "] " +:+ m +:+ ": " +:+ Py.repr f
  | ValueError m => m
  | Exception m => m
  | HTTPException c d => pretty c +:+ ": " +:+ d
  end.

Definition FileNotFoundError := OSError 2 "No such file or directory".
Definition FileExistsError := OSError 17 "File exists".
Definition NotADirectoryError := OSError 20 "Not a directory".
Definition IsADirectoryError := OSError 21 "Is a directory".
Definition FileNameTooLong := OSError 36 "File name too long".

(** ** The world: filesystem and log *)

Inductive node : Type :=
| File (data : list byte)
| Dir.

(** An absolute location is the list of its components from the leaf up
    to the root: the children of [d] are the [c :: d], the parent of
    [c :: d] is [d], the root is [[]]. *)
Abbreviation path := (list string).

Inductive level : Type := INFO | ERROR.

(** What the operating system keeps: the working directory of the process
    and the tree. *)
Record filesystem : Type := Filesystem {
  cwd : path;
  tree : gmap path node
}.

Record world : Type := World {
  fs : filesystem;
  log : list (level * string)
}.

Definition set_tree (s : filesystem) (t : gmap path node) : filesystem :=
  {| cwd := cwd s; tree := t |}.

(** The root is a directory of every tree. *)
Definition node_at (t : gmap path node) (p : path) : option node :=
  match p with
  | [] => Some Dir
  | _ => t !! p
  end.

Definition is_special (c : string) : bool :=
  String.eqb c "" || String.eqb c "." || String.eqb c "..".

(** ** Path resolution *)

Module namei.

(** One step of a walk from the directory [cur]. *)
Definition enter (t : gmap path node) (name : string) (cur : path) (c : string)
  : exn + path :=
  if String.eqb c "" || String.eqb c "." then inr cur
  else if String.eqb c ".." then inr (tail cur)
  else match t !! (c :: cur) with
       | Some Dir => inr (c :: cur)
       | Some (File _) => inl (NotADirectoryError name)
       | None => inl (FileNotFoundError name)
       end.

Fixpoint walk (t : gmap path node) (name : string) (cur : path) (cs : list string)
  : exn + path :=
  match cs with
  | [] => inr cur
  | c :: cs' =>
      match enter t name cur c with
      | inl e => inl e
      | inr p => walk t name p cs'
      end
  end.

(** [d] when a directory is there. *)
Definition directory (t : gmap path node) (name : string) (d : path) : exn + path :=
  match node_at t d with
  | Some Dir => inr d
  | Some (File _) => inl (NotADirectoryError name)
  | None => inl (FileNotFoundError name)
  end.

(** The directory that holds the last component of [name], and that
    component.  The walk starts at the root or at the working
    directory, which has to be there. *)
Definition parent (s : filesystem) (name : string) : exn + (path * string) :=
  if String.eqb name "" then inl (FileNotFoundError name)
  else
    let cs := Py.split posixpath.sep name in
    let start := if Py.startswith posixpath.sep name then [] else cwd s in
    match directory (tree s) name start with
    | inl e => inl e
    | inr start =>
        match walk (tree s) name start (removelast cs) with
        | inl e => inl e
        | inr d =>
            match directory (tree s) name d with
            | inl e => inl e
            | inr d => inr (d, List.last cs "")
            end
        end
    end.

(** The location a last component names below the directory [d]. *)
Definition target (d : path) (c : string) : path :=
  if String.eqb c "" || String.eqb c "." then d
  else if String.eqb c ".." then tail d
  else c :: d.

End namei.

(** ** The operating system interface used by the handlers *)

Module os.

(** [os.stat(name)]: where the name leads and what is there. *)
Definition stat (s : filesystem) (name : string) : exn + (path * node) :=
  match namei.parent s name with
  | inl e => inl e
  | inr (d, c) =>
      let p := namei.target d c in
      match node_at (tree s) p with
      | Some n => inr (p, n)
      | None => inl (FileNotFoundError name)
      end
  end.

(** [os.path.exists(name)]. *)
Definition path_exists (s : filesystem) (name : string) : bool :=
  match stat s name with
  | inr _ => true
  | inl _ => false
  end.

(** [os.path.isfile(name)]. *)
Definition path_isfile (s : filesystem) (name : string) : bool :=
  match stat s name with
  | inr (_, File _) => true
  | _ => false
  end.

(** [os.path.isdir(name)]. *)
Definition path_isdir (s : filesystem) (name : string) : bool :=
  match stat s name with
  | inr (_, Dir) => true
  | _ => false
  end.

(** The size a directory reports is the filesystem's business; the
    handlers ask for the size of regular files only. *)
Definition dir_size : Z := 4096.

(** [os.path.getsize(name)]. *)
Definition path_getsize (s : filesystem) (name : string) : exn + Z :=
  match stat s name with
  | inl e => inl e
  | inr (_, File data) => inr (Py.len data)
  | inr (_, Dir) => inr dir_size
  end.

(** The names of the entries of the directory at [d]. *)
Definition entries (t : gmap path node) (d : path) : list string :=
  omap (λ pn : path * node,
          match pn.1 with
          | c :: d' => if decide (d' = d) then Some c else None
          | [] => None
          end) (map_to_list t).

(** [os.listdir(name)]. *)
Definition listdir (s : filesystem) (name : string) : exn + list string :=
  match stat s name with
  | inl e => inl e
  | inr (p, Dir) => inr (entries (tree s) p)
  | inr (_, File _) => inl (NotADirectoryError name)
  end.

(** The limits on the bytes of an entry name and of a path with its
    terminator. *)
Definition NAME_MAX : Z := 255.
Definition PATH_MAX : Z := 4096.

Definition strlen (name : string) : Z := Z.of_nat (String.length name).

(** [os.mkdir(name)]. *)
Definition mkdir (s : filesystem) (name : string) : exn + filesystem :=
  if PATH_MAX <=? strlen name then inl (FileNameTooLong name)
  else
    match namei.parent s name with
    | inl e => inl e
    | inr (d, c) =>
        match node_at (tree s) (namei.target d c) with
        | Some _ => inl (FileExistsError name)
        | None =>
            if is_special c then inl (FileNotFoundError name)
            else if NAME_MAX <? strlen c then inl (FileNameTooLong name)
            else inr (set_tree s (<[c :: d := Dir]> (tree s)))
        end
    end.

(** [with open(name, 'wb') as f: f.write(data)].  [open] refuses a NUL
    character, a path or a last component that is too long, a parent
    that is not a directory and a directory in the place of the file;
    otherwise it creates or truncates the file.  In the environment of
    the model [f.write] and the closing of the file cannot fail after
    that, so that the file holds [data] afterwards and the two steps are
    one. *)
Definition write_file (s : filesystem) (name : string) (data : list byte) : exn + filesystem :=
  if Py.contains (ascii_of_nat 0) name then inl (ValueError "embedded null byte")
  else if PATH_MAX <=? strlen name then inl (FileNameTooLong name)
  else
    match namei.parent s name with
    | inl e => inl e
    | inr (d, c) =>
        if is_special c then inl (IsADirectoryError name)
        else if NAME_MAX <? strlen c then inl (FileNameTooLong name)
        else match tree s !! (c :: d) with
             | Some Dir => inl (IsADirectoryError name)
             | _ => inr (set_tree s (<[c :: d := File data]> (tree s)))
             end
    end.

End os.

(** [pathlib.Path]: a pure path (anchored at the root or relative, with
    its parts from the leaf up) and the one method the module uses. *)
Module pathlib.

Record Path : Type := mkPath { absolute : bool; parts : list string }.

(** [Path(s)]: empty and [.] components are dropped. *)
Definition of_str (s : string) : Path :=
  {| absolute := Py.startswith posixpath.sep s;
     parts := rev (List.filter
                     (λ c, negb (String.eqb c "" || String.eqb c "."))
                     (Py.split posixpath.sep s)) |}.

(** [str(p)]. *)
Definition to_str (p : Path) : string :=
  match parts p with
  | [] => if absolute p then "/" else "."
  | _ => (if absolute p then "/" else "") +:+ Py.join "/" (rev (parts p))
  end.

(** [self.mkdir(parents=False, exist_ok=True)]. *)
Definition mkdir_leaf (p : Path) (s : filesystem) : exn + filesystem :=
  match os.mkdir s (to_str p) with
  | inr s' => inr s'
  | inl (OSError n m f) =>
      if n =? 2 then inl (OSError n m f)
      else if os.path_isdir s (to_str p) then inr s else inl (OSError n m f)
  | inl e => inl e
  end.

(** [self.mkdir(parents=True, exist_ok=True)], by recursion on the
    parts: [FileNotFoundError] sends the call to the parent first. *)
Fixpoint mkdir_parts (a : bool) (ps : list string) (s : filesystem) : exn + filesystem :=
  let self := {| absolute := a; parts := ps |} in
  match os.mkdir s (to_str self) with
  | inr s' => inr s'
  | inl (OSError n m f) =>
      if n =? 2 then
        match ps with
        | [] => inl (OSError n m f)
        | _ :: up =>
            match mkdir_parts a up s with
            | inl e => inl e
            | inr s1 => mkdir_leaf self s1
            end
        end
      else if os.path_isdir s (to_str self) then inr s else inl (OSError n m f)
  | inl e => inl e
  end.

Definition mkdir (p : Path) (s : filesystem) : exn + filesystem :=
  mkdir_parts (absolute p) (parts p) s.

End pathlib.

(** ** The handler monad: state and exceptions *)

Definition M (A : Type) : Type := world → world * (exn + A).

#[global] Instance M_ret : MRet M := λ A a w, (w, inr a).

#[global] Instance M_bind : MBind M := λ A B k m w,
  match m w with
  | (w', inr a) => k a w'
  | (w', inl e) => (w', inl e)
  end.

Definition raise {A} (e : exn) : M A := λ w, (w, inl e).

(** [try: m except Exception as e: h e]. *)
Definition try_except {A} (m : M A) (h : exn → M A) : M A := λ w,
  match m w with
  | (w', inl e) => h e w'
  | r => r
  end.

(** A call that reads the world. *)
Definition reads {A} (f : filesystem → A) : M A := λ w, (w, inr (f (fs w))).

(** A call that reads the world and may raise. *)
Definition attempt {A} (f : filesystem → exn + A) : M A := λ w, (w, f (fs w)).

(** A call that changes the world or raises and leaves it as it was. *)
Definition effect (f : filesystem → exn + filesystem) : M unit := λ w,
  match f (fs w) with
  | inr s' => ({| fs := s'; log := log w |}, inr tt)
  | inl e => (w, inl e)
  end.

Definition emit (l : level) (msg : string) : M unit := λ w,
  ({| fs := fs w; log := log w ++ [(l, msg)] |}, inr tt).

Module logger.
Definition info : string → M unit := emit INFO.
Definition error : string → M unit := emit ERROR.
End logger.

(** ** audio.py *)

Definition UPLOAD_DIR : string := "./uploaded_audio".

Definition SUPPORTED_AUDIO_FORMATS : gset string :=
  {[ ".mp3"; ".wav"; ".m4a"; ".flac"; ".ogg"; ".aac"; ".wma"; ".opus" ]}.

(** The part of the multipart request a handler receives: the client's
    file name and the body that [await file.read()] returns. *)
Module UploadFile.
Record t : Type := mk { filename : string; content : list byte }.
End UploadFile.

(** [file_size_mb] is in hundredths of a megabyte. *)
Module UploadResponse.
Record t : Type := mk {
  status : string;
  filename : string;
  file_size_mb : Z;
  file_path : string;
  audio_format : string;
  message : string
}.
End UploadResponse.

Module StatusResponse.
Record t : Type := mk {
  status : string;
  message : string;
  total_files : option Z
}.
End StatusResponse.

(** One entry of the [files] list of [GET /files]; [size_mb] is in
    hundredths of a megabyte. *)
Module FileEntry.
Record t : Type := mk { filename : string; size_mb : Z; path : string }.
End FileEntry.

Module FilesResponse.
Record t : Type := mk { total_files : Z; files : list FileEntry.t }.
End FilesResponse.

(** The statement at module level that runs once, at import. *)
Definition startup : M unit :=
  effect (pathlib.mkdir (pathlib.of_str UPLOAD_DIR)).

Definition parse_audio (file_content : list byte) (file_name : string) : M string :=
  try_except
    (let output_path := posixpath.join UPLOAD_DIR file_name in
     effect (λ s, os.write_file s output_path file_content);;
     logger.info ("Successfully saved audio file: " +:+ output_path);;
     mret output_path)
    (λ e,
     logger.error ("Failed to save uploaded file " +:+ file_name +:+ ": " +:+ str e);;
     raise (Exception ("Failed to save uploaded Audio: " +:+ str e))).

Section Handlers.

(** The order in which the interpreter iterates over the set of
    supported formats; the language leaves it open. *)
Variable formats_iter : list string.

Definition upload_audio (file : UploadFile.t) : M UploadResponse.t :=
  let file_extension :=
    Py.lower (posixpath.splitext (UploadFile.filename file)).2 in
  if negb (bool_decide (file_extension ∈ SUPPORTED_AUDIO_FORMATS)) then
    raise (HTTPException 400
             ("Unsupported audio format. Supported formats: "
              +:+ Py.join ", " formats_iter))
  else
    let MAX_FILE_SIZE := 100 * 1024 * 1024 in
    let file_content := UploadFile.content file in
    if MAX_FILE_SIZE <? Py.len file_content then
      (* MAX_FILE_SIZE / (1024*1024) is the float 100.0 *)
      raise (HTTPException 413 "File too large. Maximum size is 100.0MB")
    else if Py.len file_content =? 0 then
      raise (HTTPException 400 "Empty file uploaded")
    else
      let file_size_bytes := Py.len file_content in
      let file_size_mb := Py.truediv file_size_bytes (1024 * 1024) in
      try_except
        (logger.info ("Processing audio file: " +:+ UploadFile.filename file
                      +:+ ", size: " +:+ Py.format_2f file_size_mb +:+ "MB");;
         file_path ← parse_audio file_content (UploadFile.filename file);
         logger.info ("Successfully saved audio file to " +:+ file_path);;
         mret {| UploadResponse.status := "success";
                 UploadResponse.filename := posixpath.basename file_path;
                 UploadResponse.file_size_mb := Py.round_2 file_size_mb;
                 UploadResponse.file_path := file_path;
                 UploadResponse.audio_format :=
                   Py.lstrip posixpath.extsep file_extension;
                 UploadResponse.message :=
                   "Successfully uploaded audio file: "
                   +:+ posixpath.basename file_path |})
        (λ e,
         match e with
         | HTTPException _ _ => raise e
         | _ =>
             logger.error ("Unexpected error processing "
                           +:+ UploadFile.filename file +:+ ": " +:+ str e);;
             raise (HTTPException 500 ("Internal server error: " +:+ str e))
         end).

End Handlers.

Definition health_check : M StatusResponse.t :=
  try_except
    ((exists_ ← reads (λ s, os.path_exists s UPLOAD_DIR);
      if negb exists_ then effect (pathlib.mkdir (pathlib.of_str UPLOAD_DIR))
      else mret tt);;
     names ← attempt (λ s, os.listdir s UPLOAD_DIR);
     regular ← reads (λ s,
       List.filter (λ f, os.path_isfile s (posixpath.join UPLOAD_DIR f)) names);
     mret {| StatusResponse.status := "healthy";
             StatusResponse.message := "Audio Ingestion API is running";
             StatusResponse.total_files := Some (Py.len regular) |})
    (λ e,
     logger.error ("Health check failed: " +:+ str e);;
     raise (HTTPException 503 "Service unhealthy")).

(** The body of the [for] loop of [list_files], over the names that
    [os.listdir] returned. *)
Fixpoint list_files_loop (names : list string) (files : list FileEntry.t)
  : M (list FileEntry.t) :=
  match names with
  | [] => mret files
  | filename :: rest =>
      let file_path := posixpath.join UPLOAD_DIR filename in
      isfile ← reads (λ s, os.path_isfile s file_path);
      if isfile : bool then
        size ← attempt (λ s, os.path_getsize s file_path);
        let file_size := Py.truediv size (1024 * 1024) in
        list_files_loop rest
          (files ++ [ {| FileEntry.filename := filename;
                         FileEntry.size_mb := Py.round_2 file_size;
                         FileEntry.path := file_path |} ])
      else list_files_loop rest files
  end.

Definition list_files : M FilesResponse.t :=
  try_except
    (names ← attempt (λ s, os.listdir s UPLOAD_DIR);
     files ← list_files_loop names [];
     mret {| FilesResponse.total_files := Py.len files;
             FilesResponse.files := files |})
    (λ e,
     logger.error ("Error listing files: " +:+ str e);;
     raise (HTTPException 500 ("Failed to list files: " +:+ str e))).

(** The answer of [GET /]; [endpoints] keeps the order of the dictionary
    literal. *)
Module RootResponse.
Record t : Type := mk {
  service : string;
  version : string;
  description : string;
  endpoints : list (string * string);
  supported_formats : list string;
  max_file_size : string;
  upload_directory : string
}.
End RootResponse.

(** [root], with the order in which [list(SUPPORTED_AUDIO_FORMATS)]
    iterates over the set. *)
Definition root (formats_iter : list string) : M RootResponse.t :=
  mret {| RootResponse.service := "Audio Ingestion API";
          RootResponse.version := "1.0.0";
          RootResponse.description := "Upload and store audio files";
          RootResponse.endpoints :=
            [("POST /upload", "Upload an audio file");
             ("GET /health", "Health check");
             ("GET /files", "List all uploaded files");
             ("GET /", "API information")];
          RootResponse.supported_formats := formats_iter;
          RootResponse.max_file_size := "100MB";
          RootResponse.upload_directory := UPLOAD_DIR |}.

(** The status line of the response the framework sends: 200 for a
    returned value, the status of a raised [HTTPException], 500 for any
    other exception. *)
Definition http_status {A} (r : exn + A) : Z :=
  match r with
  | inr _ => 200
  | inl (HTTPException c _) => c
  | inl _ => 500
  end.

(** ** Vocabulary of the properties *)

(** Where [UPLOAD_DIR] leads: the entry [uploaded_audio] of the working
    directory. *)
Definition storage_dir (s : filesystem) : path := "uploaded_audio" :: cwd s.

(** The eight extensions of the allow-list, as the specification lists
    them. *)
Definition allow_list : list string :=
  [".mp3"; ".wav"; ".m4a"; ".flac"; ".ogg"; ".aac"; ".wma"; ".opus"].

(** The lower-cased extension of a file name. *)
Definition extension (file_name : string) : string :=
  Py.lower (posixpath.splitext file_name).2.

(** A file name that is a single component: it has no separator. *)
Definition plain (file_name : string) : Prop :=
  Py.contains posixpath.sep file_name = false.

(** The names a directory entry can have. *)
Definition valid_name (c : string) : bool :=
  negb (is_special c) && negb (Py.contains posixpath.sep c).

(** Every component of every location of the tree is an entry name. *)
Definition wf_names (t : gmap path node) : bool :=
  forallb (λ pn : path * node, forallb valid_name pn.1) (map_to_list t).

(** A filesystem whose locations, the working directory included, are
    made of entry names. *)
Definition wf (s : filesystem) : Prop :=
  wf_names (tree s) = true ∧ Forall (λ c, valid_name c = true) (cwd s).

(** [(p, n)] is a regular file directly inside the directory [d]. *)
Definition regular_in (d : path) (pn : path * node) : bool :=
  match pn with
  | (_ :: d', File _) => bool_decide (d' = d)
  | _ => false
  end.

(** The number of regular files present in the directory [d]. *)
Definition count_regular_files (t : gmap path node) (d : path) : Z :=
  Z.of_nat (size (filter (λ pn, Is_true (regular_in d pn)) t)).

(** The world after the handler wrote the lines [ls] to the log. *)
Definition logged (s : filesystem) (l ls : list (level * string)) : world :=
  {| fs := s; log := l ++ ls |}.

(** [GET /files] lists a file of the given name and size. *)
Definition listed (r : FilesResponse.t) (name : string) (size_mb : Z) : Prop :=
  ∃ e, e ∈ FilesResponse.files r
       ∧ FileEntry.filename e = name ∧ FileEntry.size_mb e = size_mb.

(** The rejection of a file name whose extension is not supported. *)
Definition unsupported (formats_iter : list string) : exn :=
  HTTPException 400
    ("Unsupported audio format. Supported formats: " +:+ Py.join ", " formats_iter).

(** The response of a successful upload. *)
Definition success (file : UploadFile.t) : UploadResponse.t :=
  let file_path := posixpath.join UPLOAD_DIR (UploadFile.filename file) in
  {| UploadResponse.status := "success";
     UploadResponse.filename := posixpath.basename file_path;
     UploadResponse.file_size_mb :=
       Py.round_hundredths (Py.len (UploadFile.content file)) (1024 * 1024);
     UploadResponse.file_path := file_path;
     UploadResponse.audio_format :=
       Py.lstrip posixpath.extsep (extension (UploadFile.filename file));
     UploadResponse.message :=
       "Successfully uploaded audio file: " +:+ posixpath.basename file_path |}.

(** A file name without extension: [os.path.splitext] finds none, which
    covers the names without a dot and those whose only dot leads. *)
Definition no_extension (name : string) : Prop :=
  (posixpath.splitext name).2 = ""
  ∨ Py.contains posixpath.extsep name = false
  ∨ ∃ rest, name = String posixpath.extsep rest
            ∧ Py.contains posixpath.extsep rest = false.

(** The entry [GET /files] makes of a name of the storage directory:
    none unless the name leads to a regular file. *)
Definition entry_of (s : filesystem) (filename : string) : option FileEntry.t :=
  let file_path := posixpath.join UPLOAD_DIR filename in
  match os.stat s file_path with
  | inr (_, File data) =>
      Some {| FileEntry.filename := filename;
              FileEntry.size_mb := Py.round_hundredths (Py.len data) (1024 * 1024);
              FileEntry.path := file_path |}
  | _ => None
  end.

(** The location [p] is below the directory [d], at any depth. *)
Definition below (d p : path) : Prop := ∃ rel, rel ≠ [] ∧ p = rel ++ d.

(** What a successful upload promises: the response, the stored bytes
    and the listing that follows. *)
Definition upload_stored_and_listed
    (formats_iter : list string) (file : UploadFile.t) (w : world) : Prop :=
  ∃ w' r listing,
    upload_audio formats_iter file w = (w', inr r)
    ∧ http_status (upload_audio formats_iter file w).2 = 200
    ∧ UploadResponse.status r = "success"
    ∧ UploadResponse.file_path r
      = posixpath.join UPLOAD_DIR (UploadFile.filename file)
    ∧ UploadResponse.filename r = posixpath.basename (UploadResponse.file_path r)
    ∧ UploadResponse.file_size_mb r
      = Py.round_hundredths (Py.len (UploadFile.content file)) (1024 * 1024)
    ∧ 2 * Z.abs (100 * Py.len (UploadFile.content file)
                 - UploadResponse.file_size_mb r * (1024 * 1024)) <= 1024 * 1024
    ∧ String posixpath.extsep (UploadResponse.audio_format r)
      = extension (UploadFile.filename file)
    ∧ (∃ p, below (storage_dir (fs w')) p
            ∧ os.stat (fs w') (UploadResponse.file_path r)
              = inr (p, File (UploadFile.content file)))
    ∧ list_files w' = (w', inr listing)
    ∧ listed listing (UploadResponse.filename r) (UploadResponse.file_size_mb r).

(** The answer of a health check that counted [n] files. *)
Definition healthy (n : Z) : StatusResponse.t :=
  {| StatusResponse.status := "healthy";
     StatusResponse.message := "Audio Ingestion API is running";
     StatusResponse.total_files := Some n |}.

(** The names the health check counts: those of the storage directory
    that [os.path.isfile] accepts once joined to [UPLOAD_DIR]. *)
Definition regular_names (s : filesystem) : list string :=
  List.filter (λ f, os.path_isfile s (posixpath.join UPLOAD_DIR f))
    (os.entries (tree s) (storage_dir s)).

(** The filesystem after the storage directory was made. *)
Definition with_storage_dir (s : filesystem) : filesystem :=
  set_tree s (<[storage_dir s := Dir]> (tree s)).

(** The health check leaves the filesystem as it found it. *)
Definition health_read_only (w : world) : Prop :=
  fs (health_check w).1 = fs w.

(** A second health check answers as the first did and leaves the
    filesystem as the first left it. *)
Definition health_idempotent (w : world) : Prop :=
  let once := health_check w in
  let twice := health_check once.1 in
  twice.2 = once.2 ∧ fs twice.1 = fs once.1.

(** ** Sample worlds and uploads *)

Module Sample.

(** A process in [/srv] whose storage directory is not there. *)
Definition bare : filesystem :=
  {| cwd := ["srv"]; tree := {[ ["srv"] := Dir ]} |}.

(** The same after the module was loaded. *)
Definition fresh : filesystem :=
  {| cwd := ["srv"];
     tree := {[ ["srv"] := Dir; ["uploaded_audio"; "srv"] := Dir ]} |}.

(** A storage directory with two files and a subdirectory. *)
Definition stocked : filesystem :=
  {| cwd := ["srv"];
     tree := {[ ["srv"] := Dir;
                ["uploaded_audio"; "srv"] := Dir;
                ["a.mp3"; "uploaded_audio"; "srv"] := File (repeat x01 3);
                ["b.wav"; "uploaded_audio"; "srv"] := File [];
                ["old"; "uploaded_audio"; "srv"] := Dir ]} |}.

Definition quiet (s : filesystem) : world := {| fs := s; log := [] |}.

Definition ten_bytes : list byte := repeat x00 10.
Definition other_bytes : list byte := repeat xff 4.

(** [fresh] with [song.mp3] in the storage directory. *)
Definition with_song : filesystem :=
  set_tree fresh
    (<[ ["song.mp3"; "uploaded_audio"; "srv"] := File ten_bytes ]> (tree fresh)).

Definition song : UploadFile.t := UploadFile.mk "song.mp3" ten_bytes.
Definition escaping : UploadFile.t := UploadFile.mk "../song.mp3" ten_bytes.
Definition notes : UploadFile.t := UploadFile.mk "notes.txt" ten_bytes.
Definition dotfile : UploadFile.t := UploadFile.mk ".mp3" ten_bytes.

End Sample.

(** ** Vocabulary of the further properties *)

(** The formats as a response names them, without the dot. *)
Definition format_names : list string :=
  ["mp3"; "wav"; "m4a"; "flac"; "ogg"; "aac"; "wma"; "opus"].

(** The name has no NUL character, which [open] refuses. *)
Definition nul_free (name : string) : Prop :=
  Py.contains (ascii_of_nat 0) name = false.

(** The name is an entry name's length: at most 255 bytes. *)
Definition short (name : string) : Prop := os.strlen name <= os.NAME_MAX.

(** The storage directory is there, below a working directory that is
    there. *)
Definition storage_ready (s : filesystem) : Prop :=
  node_at (tree s) (cwd s) = Some Dir ∧ tree s !! storage_dir s = Some Dir.

(** The entry [GET /files] shows for a regular file of the storage
    directory. *)
Definition entry_for (name : string) (data : list byte) : FileEntry.t :=
  {| FileEntry.filename := name;
     FileEntry.size_mb := Py.round_hundredths (Py.len data) (1024 * 1024);
     FileEntry.path := UPLOAD_DIR +:+ String posixpath.sep name |}.

(** Further sample worlds and uploads. *)
Module More.

(** A process whose storage path is taken by a regular file. *)
Definition blocked : filesystem :=
  {| cwd := ["srv"];
     tree := {[ ["srv"] := Dir; ["uploaded_audio"; "srv"] := File [] ]} |}.

Definition rooted : UploadFile.t :=
  UploadFile.mk "/srv/song.mp3" Sample.ten_bytes.
Definition a_mp3 : UploadFile.t := UploadFile.mk "a.mp3" Sample.other_bytes.
Definition c_ogg : UploadFile.t := UploadFile.mk "c.ogg" Sample.ten_bytes.

End More.

(** * Properties *)

(** Opens the operations of the handler monad in the goal. *)
Ltac run_handler :=
  unfold try_except, mbind, M_bind, mret, M_ret, reads, attempt, effect, raise,
    logger.info, logger.error, emit, logged.

(** ** Rounding *)

(** The rounded value is a hundredth nearest to the exact quotient. *)
Lemma round_hundredths_nearest num den :
  0 < den → 2 * Z.abs (100 * num - Py.round_hundredths num den * den) <= den.
Proof.
  intros Hden. unfold Py.round_hundredths.
  pose proof (Z.div_mod (100 * num) den ltac:(lia)) as Hdm.
  pose proof (Z.mod_pos_bound (100 * num) den Hden) as Hr.
  set (q := (100 * num) `div` den) in *. set (r := (100 * num) `mod` den) in *.
  destruct (2 * r <? den) eqn:H1; [apply Z.ltb_lt in H1; lia|].
  apply Z.ltb_ge in H1.
  destruct (den <? 2 * r) eqn:H2; [apply Z.ltb_lt in H2; lia|].
  apply Z.ltb_ge in H2. destruct (Z.even q); lia.
Qed.

(** Ties go to the even hundredth: [round(0.125, 2)] is [0.12] and
    [round(0.375, 2)] is [0.38]. *)
Example round_hundredths_ties :
  Py.round_hundredths 1 8 = 12 ∧ Py.round_hundredths 3 8 = 38.
Proof. split; reflexivity. Qed.

(** ** Strings and paths *)

Section StringFacts.

Implicit Types (c a : ascii) (s : string).

Lemma app_nil s : "" +:+ s = s.
Proof. reflexivity. Qed.

Lemma app_cons a s1 s2 : String a s1 +:+ s2 = String a (s1 +:+ s2).
Proof. reflexivity. Qed.

Lemma app_snoc s1 c s2 : (s1 +:+ String c "") +:+ s2 = s1 +:+ String c s2.
Proof.
  induction s1 as [|a s1 IH]; [reflexivity|]. rewrite !app_cons. by rewrite IH.
Qed.

Lemma length_app s1 s2 :
  String.length (s1 +:+ s2) = (String.length s1 + String.length s2)%nat.
Proof.
  induction s1 as [|a s1 IH]; [reflexivity|]. rewrite app_cons. simpl.
  by rewrite IH.
Qed.

Lemma split_nonempty c s : Py.split c s ≠ [].
Proof.
  destruct s as [|a s]; simpl; [done|].
  destruct (Ascii.eqb a c); [done|].
  destruct (Py.split c s); done.
Qed.

Lemma split_no_sep c s : Py.contains c s = false → Py.split c s = [s].
Proof.
  induction s as [|a s IH]; simpl; [done|].
  intros [Ha Hs]%orb_false_iff. rewrite Ha, IH by done. done.
Qed.

Lemma split_app_sep c s1 s2 :
  Py.split c (s1 +:+ String c s2) = Py.split c s1 ++ Py.split c s2.
Proof.
  induction s1 as [|a s1 IH]; rewrite ?app_nil, ?app_cons; simpl.
  - by rewrite Ascii.eqb_refl.
  - destruct (Ascii.eqb a c); [by rewrite IH|].
    rewrite IH. pose proof (split_nonempty c s1).
    destruct (Py.split c s1); done.
Qed.

Lemma rfind_from_lower c s i : 0 <= i → -1 <= Py.rfind_from c s i.
Proof.
  revert i. induction s as [|a s IH]; simpl; intros i Hi; [lia|].
  specialize (IH (i + 1) ltac:(lia)).
  destruct (0 <=? Py.rfind_from c s (i + 1)); [lia|].
  destruct (Ascii.eqb a c); lia.
Qed.

Lemma rfind_from_absent c s i : Py.contains c s = false → Py.rfind_from c s i = -1.
Proof.
  revert i. induction s as [|a s IH]; simpl; intros i; [done|].
  intros [Ha Hs]%orb_false_iff. by rewrite IH, Ha.
Qed.

Lemma rfind_lower c s : -1 <= Py.rfind c s.
Proof. by apply rfind_from_lower. Qed.

(** The last separator of [a/b] is the one in the middle when [b] has
    none. *)
Lemma rfind_from_app_sep c s1 s2 i :
  0 <= i → Py.contains c s2 = false →
  Py.rfind_from c (s1 +:+ String c s2) i = i + Z.of_nat (String.length s1).
Proof.
  revert i.
  induction s1 as [|a s1 IH]; rewrite ?app_nil, ?app_cons; simpl; intros i Hi Hs2.
  - rewrite rfind_from_absent, Ascii.eqb_refl by done. simpl. lia.
  - rewrite IH by (done || lia).
    destruct (0 <=? _) eqn:Hle; [lia|]. apply Z.leb_gt in Hle. lia.
Qed.

Lemma drop_app_length s1 s2 : Py.drop (String.length s1) (s1 +:+ s2) = s2.
Proof.
  induction s1 as [|a s1 IH]; rewrite ?app_nil, ?app_cons; simpl;
    [by destruct s2|done].
Qed.

Lemma basename_join_plain s1 s2 :
  Py.contains posixpath.sep s2 = false →
  posixpath.basename (s1 +:+ String posixpath.sep s2) = s2.
Proof.
  intros Hs2. unfold posixpath.basename, Py.rfind, Py.slice_from.
  rewrite rfind_from_app_sep by done.
  replace (Z.to_nat (0 + Z.of_nat (String.length s1) + 1))
    with (String.length (s1 +:+ String posixpath.sep "")).
  - rewrite <- (app_snoc s1 posixpath.sep s2). apply drop_app_length.
  - rewrite length_app. simpl. lia.
Qed.

Lemma startswith_contains c s : Py.startswith c s = true → Py.contains c s = true.
Proof. destruct s as [|a s]; simpl; [done|]. by intros ->. Qed.

Lemma join_upload_dir_plain s :
  Py.contains posixpath.sep s = false →
  posixpath.join UPLOAD_DIR s = UPLOAD_DIR +:+ String posixpath.sep s.
Proof.
  intros Hs. unfold posixpath.join.
  destruct (Py.startswith posixpath.sep s) eqn:Hst; [|done].
  apply startswith_contains in Hst. congruence.
Qed.

(** A name without a dot has no extension. *)
Lemma splitext_no_dot s :
  Py.contains posixpath.extsep s = false → (posixpath.splitext s).2 = "".
Proof.
  intros Hs. unfold posixpath.splitext, Py.rfind at 2.
  rewrite (rfind_from_absent _ _ _ Hs).
  pose proof (rfind_lower posixpath.sep s).
  destruct (_ <? _) eqn:Hlt; [apply Z.ltb_lt in Hlt; lia|done].
Qed.

(** A name whose only dot is the leading one has no extension. *)
Lemma splitext_leading_dot s :
  Py.contains posixpath.extsep s = false →
  (posixpath.splitext (String posixpath.extsep s)).2 = "".
Proof.
  intros Hs. unfold posixpath.splitext.
  assert (Py.rfind posixpath.extsep (String posixpath.extsep s) = 0) as ->.
  { unfold Py.rfind. simpl. by rewrite rfind_from_absent. }
  pose proof (rfind_lower posixpath.sep (String posixpath.extsep s)) as Hlo.
  destruct (_ <? 0) eqn:Hlt; [|done]. apply Z.ltb_lt in Hlt.
  assert (Py.rfind posixpath.sep (String posixpath.extsep s) = -1) as -> by lia.
  done.
Qed.

End StringFacts.

(** ** Resolution of the paths the handlers use *)

Section Resolution.

Implicit Types (s : filesystem) (f : string).

Lemma split_upload_dir : Py.split posixpath.sep UPLOAD_DIR = ["."; "uploaded_audio"].
Proof. reflexivity. Qed.

Lemma split_in_upload_dir f :
  plain f →
  Py.split posixpath.sep (UPLOAD_DIR +:+ String posixpath.sep f)
  = ["."; "uploaded_audio"; f].
Proof.
  intros Hf. by rewrite split_app_sep, split_upload_dir, (split_no_sep _ _ Hf).
Qed.

Lemma valid_name_spec c :
  valid_name c = true → is_special c = false ∧ plain c.
Proof.
  unfold valid_name, plain. intros [H1 H2]%andb_true_iff.
  by apply negb_true_iff in H1, H2.
Qed.

Lemma is_special_false c :
  is_special c = false →
  String.eqb c "" || String.eqb c "." = false ∧ String.eqb c ".." = false.
Proof. unfold is_special. intros [H ?]%orb_false_iff. done. Qed.

Lemma target_valid d c : is_special c = false → namei.target d c = c :: d.
Proof.
  intros [H1 H2]%is_special_false. unfold namei.target. by rewrite H1, H2.
Qed.

Lemma directory_inr t name d d' :
  namei.directory t name d = inr d' → d' = d ∧ node_at t d = Some Dir.
Proof.
  unfold namei.directory. destruct (node_at t d) as [[|]|]; [done| |done].
  by intros [= <-].
Qed.

Lemma directory_dir t name d :
  node_at t d = Some Dir → namei.directory t name d = inr d.
Proof. unfold namei.directory. by intros ->. Qed.

(** The directory of [UPLOAD_DIR/f] is the storage directory, when it is
    there. *)
Lemma parent_in_upload_dir s f :
  plain f →
  node_at (tree s) (cwd s) = Some Dir → tree s !! storage_dir s = Some Dir →
  namei.parent s (UPLOAD_DIR +:+ String posixpath.sep f) = inr (storage_dir s, f).
Proof.
  intros Hf Hcwd Hd. unfold namei.parent.
  rewrite split_in_upload_dir by done.
  change (UPLOAD_DIR +:+ String posixpath.sep f)
    with (String "." ("/uploaded_audio" +:+ String posixpath.sep f)).
  cbn [Py.startswith String.eqb removelast namei.walk]. cbn.
  rewrite (directory_dir _ _ _ Hcwd).
  unfold storage_dir in Hd. rewrite Hd.
  rewrite directory_dir by done. done.
Qed.

(** Without the storage directory no name below it resolves. *)
Lemma parent_in_upload_dir_absent s f :
  plain f → tree s !! storage_dir s ≠ Some Dir →
  ∃ e, namei.parent s (UPLOAD_DIR +:+ String posixpath.sep f) = inl e.
Proof.
  intros Hf Hd. unfold namei.parent.
  rewrite split_in_upload_dir by done.
  change (UPLOAD_DIR +:+ String posixpath.sep f)
    with (String "." ("/uploaded_audio" +:+ String posixpath.sep f)).
  cbn [Py.startswith String.eqb removelast namei.walk]. cbn.
  destruct (namei.directory _ _ (cwd s)) as [e|d] eqn:Hcwd; [eauto|].
  apply directory_inr in Hcwd as [-> _].
  unfold storage_dir in Hd.
  destruct (tree s !! ("uploaded_audio" :: cwd s)) as [[|]|] eqn:E; eauto.
  done.
Qed.

Lemma stat_upload_dir s :
  os.stat s UPLOAD_DIR =
  match node_at (tree s) (cwd s) with
  | Some Dir =>
      match tree s !! storage_dir s with
      | Some n => inr (storage_dir s, n)
      | None => inl (FileNotFoundError UPLOAD_DIR)
      end
  | Some (File _) => inl (NotADirectoryError UPLOAD_DIR)
  | None => inl (FileNotFoundError UPLOAD_DIR)
  end.
Proof.
  unfold os.stat, namei.parent, namei.directory. cbn.
  destruct (node_at (tree s) (cwd s)) as [[|]|] eqn:E; cbn; rewrite ?E; done.
Qed.

Lemma stat_in_upload_dir s f :
  plain f → is_special f = false →
  node_at (tree s) (cwd s) = Some Dir → tree s !! storage_dir s = Some Dir →
  os.stat s (UPLOAD_DIR +:+ String posixpath.sep f) =
  match tree s !! (f :: storage_dir s) with
  | Some n => inr (f :: storage_dir s, n)
  | None => inl (FileNotFoundError (UPLOAD_DIR +:+ String posixpath.sep f))
  end.
Proof.
  intros Hf Hsp Hcwd Hd. unfold os.stat.
  rewrite parent_in_upload_dir, target_valid by done. done.
Qed.

End Resolution.

(** ** The upload handler, case by case *)

Section Upload.

Variable formats_iter : list string.
Implicit Types (file : UploadFile.t) (w : world).

Lemma supported_allow_list e : e ∈ SUPPORTED_AUDIO_FORMATS ↔ e ∈ allow_list.
Proof.
  unfold SUPPORTED_AUDIO_FORMATS, allow_list.
  rewrite !elem_of_union, !elem_of_singleton, !elem_of_cons, elem_of_nil.
  tauto.
Qed.

Lemma upload_audio_unsupported file w :
  extension (UploadFile.filename file) ∉ allow_list →
  upload_audio formats_iter file w = (w, inl (unsupported formats_iter)).
Proof.
  intros Hext. unfold upload_audio. fold (extension (UploadFile.filename file)).
  rewrite bool_decide_eq_false_2; [done|]. by rewrite supported_allow_list.
Qed.

Lemma upload_audio_too_large file w :
  extension (UploadFile.filename file) ∈ allow_list →
  104857600 < Py.len (UploadFile.content file) →
  upload_audio formats_iter file w
  = (w, inl (HTTPException 413 "File too large. Maximum size is 100.0MB")).
Proof.
  intros Hext Hlen. unfold upload_audio. fold (extension (UploadFile.filename file)).
  rewrite bool_decide_eq_true_2 by by rewrite supported_allow_list.
  cbn [negb]. change (100 * 1024 * 1024) with 104857600.
  by rewrite (proj2 (Z.ltb_lt _ _) Hlen).
Qed.

Lemma upload_audio_empty file w :
  extension (UploadFile.filename file) ∈ allow_list →
  UploadFile.content file = [] →
  upload_audio formats_iter file w = (w, inl (HTTPException 400 "Empty file uploaded")).
Proof.
  intros Hext Hlen. unfold upload_audio. fold (extension (UploadFile.filename file)).
  rewrite bool_decide_eq_true_2 by by rewrite supported_allow_list.
  by rewrite Hlen.
Qed.

(** Past the three checks the outcome is that of the write. *)
Lemma upload_audio_valid file w :
  extension (UploadFile.filename file) ∈ allow_list →
  0 < Py.len (UploadFile.content file) <= 104857600 →
  upload_audio formats_iter file w =
  let name := UploadFile.filename file in
  let output_path := posixpath.join UPLOAD_DIR name in
  let size := Py.truediv (Py.len (UploadFile.content file)) (1024 * 1024) in
  let started :=
    (INFO, "Processing audio file: " +:+ name +:+ ", size: "
           +:+ Py.format_2f size +:+ "MB") in
  match os.write_file (fs w) output_path (UploadFile.content file) with
  | inr s' =>
      (logged s' (log w)
         [started;
          (INFO, "Successfully saved audio file: " +:+ output_path);
          (INFO, "Successfully saved audio file to " +:+ output_path)],
       inr (success file))
  | inl e =>
      let reason := "Failed to save uploaded Audio: " +:+ str e in
      (logged (fs w) (log w)
         [started;
          (ERROR, "Failed to save uploaded file " +:+ name +:+ ": " +:+ str e);
          (ERROR, "Unexpected error processing " +:+ name +:+ ": " +:+ reason)],
       inl (HTTPException 500 ("Internal server error: " +:+ reason)))
  end.
Proof.
  intros Hext [Hpos Hmax]. unfold upload_audio.
  fold (extension (UploadFile.filename file)).
  rewrite bool_decide_eq_true_2 by by rewrite supported_allow_list.
  cbn [negb]. change (100 * 1024 * 1024) with 104857600.
  rewrite (proj2 (Z.ltb_ge _ _) Hmax).
  rewrite (proj2 (Z.eqb_neq _ _)) by lia.
  unfold parse_audio. run_handler. cbn.
  destruct (os.write_file _ _ _) as [e|s']; cbn;
    rewrite <- !app_assoc; reflexivity.
Qed.

End Upload.

(** ** Rejections of the upload handler *)

(** C2: a file name whose lower-cased extension is not one of the eight
    supported ones is answered with status 400, and the answer does not
    depend on the content: the world is left as it was and the exception
    is the same for every body. *)
Theorem upload_unsupported_extension_400 formats_iter file w :
  extension (UploadFile.filename file) ∉ allow_list →
  upload_audio formats_iter file w = (w, inl (unsupported formats_iter))
  ∧ http_status (upload_audio formats_iter file w).2 = 400.
Proof.
  intros Hext. by rewrite upload_audio_unsupported.
Qed.

Lemma upload_unsupported_extension_400_witness :
  upload_audio allow_list Sample.notes (Sample.quiet Sample.fresh)
  = (Sample.quiet Sample.fresh, inl (unsupported allow_list))
  ∧ http_status (upload_audio allow_list Sample.notes (Sample.quiet Sample.fresh)).2 = 400.
Proof.
  apply upload_unsupported_extension_400.
  apply (proj1 (bool_decide_eq_false _)). vm_compute. reflexivity.
Defined.

Lemma len_zero {A} (l : list A) : Py.len l = 0 → l = [].
Proof. destruct l; [done|]. unfold Py.len. simpl. lia. Qed.

Lemma len_nonneg {A} (l : list A) : 0 <= Py.len l.
Proof. unfold Py.len. lia. Qed.

(** C3: with a supported extension the answer is 413 exactly when the
    content is longer than 104857600 bytes; a content of exactly that
    length passes the size check, the answer is then 200 or, when the
    write fails, 500. *)
Theorem upload_413_iff_too_large formats_iter file w :
  extension (UploadFile.filename file) ∈ allow_list →
  (http_status (upload_audio formats_iter file w).2 = 413
   ↔ 104857600 < Py.len (UploadFile.content file))
  ∧ (Py.len (UploadFile.content file) = 104857600 →
     http_status (upload_audio formats_iter file w).2 = 200
     ∨ http_status (upload_audio formats_iter file w).2 = 500).
Proof.
  intros Hext.
  destruct (Z.lt_trichotomy (Py.len (UploadFile.content file)) 104857600)
    as [Hlt|[Heq|Hgt]].
  - destruct (Z.eq_dec (Py.len (UploadFile.content file)) 0) as [H0|H0].
    + rewrite upload_audio_empty by auto using len_zero. cbn. lia.
    + pose proof (len_nonneg (UploadFile.content file)).
      rewrite upload_audio_valid by (done || lia). cbn zeta.
      destruct (os.write_file _ _ _); cbn; lia.
  - rewrite upload_audio_valid by (done || lia). cbn zeta.
    destruct (os.write_file _ _ _); cbn; lia.
  - rewrite upload_audio_too_large by done. cbn. lia.
Qed.

Lemma upload_413_iff_too_large_witness :
  (http_status (upload_audio allow_list Sample.song (Sample.quiet Sample.fresh)).2 = 413
   ↔ 104857600 < Py.len (UploadFile.content Sample.song))
  ∧ (Py.len (UploadFile.content Sample.song) = 104857600 →
     http_status (upload_audio allow_list Sample.song (Sample.quiet Sample.fresh)).2 = 200
     ∨ http_status (upload_audio allow_list Sample.song (Sample.quiet Sample.fresh)).2 = 500).
Proof.
  apply upload_413_iff_too_large.
  apply (bool_decide_unpack _). vm_compute. exact I.
Defined.

(** C4: an upload of zero bytes is answered with status 400 whatever the
    file name, as an empty file when the extension is supported and as an
    unsupported format otherwise; the world, and so the storage
    directory, is left as it was. *)
Theorem upload_zero_bytes_400 formats_iter name w :
  ∃ e, upload_audio formats_iter (UploadFile.mk name []) w = (w, inl e)
       ∧ http_status (inl e : exn + UploadResponse.t) = 400
       ∧ e = if bool_decide (extension name ∈ allow_list)
             then HTTPException 400 "Empty file uploaded"
             else unsupported formats_iter.
Proof.
  case_bool_decide as Hext.
  - eexists. by rewrite upload_audio_empty.
  - eexists. by rewrite upload_audio_unsupported.
Qed.

(** C9: when the three checks pass and the write raises [e], the handler
    answers with status 500 and a detail that ends with [str(e)]; the
    exception is an [HTTPException], which the framework turns into a
    response, and the filesystem is as it was. *)
Theorem upload_write_failure_500 formats_iter file w e :
  extension (UploadFile.filename file) ∈ allow_list →
  0 < Py.len (UploadFile.content file) <= 104857600 →
  os.write_file (fs w) (posixpath.join UPLOAD_DIR (UploadFile.filename file))
    (UploadFile.content file) = inl e →
  ∃ w', upload_audio formats_iter file w
        = (w', inl (HTTPException 500
                      ("Internal server error: Failed to save uploaded Audio: "
                       +:+ str e)))
        ∧ fs w' = fs w.
Proof.
  intros Hext Hlen Hwrite. rewrite upload_audio_valid by done. cbn zeta.
  rewrite Hwrite. eexists. split; reflexivity.
Qed.

Lemma upload_write_failure_500_witness :
  ∃ w', upload_audio allow_list Sample.song (Sample.quiet Sample.bare)
        = (w', inl (HTTPException 500
                      ("Internal server error: Failed to save uploaded Audio: "
                       +:+ str (FileNotFoundError "./uploaded_audio/song.mp3"))))
        ∧ fs w' = fs (Sample.quiet Sample.bare).
Proof.
  apply upload_write_failure_500.
  - apply (bool_decide_unpack _). vm_compute. exact I.
  - vm_compute. split; [reflexivity|discriminate].
  - vm_compute. reflexivity.
Defined.

(** C10: a file name without extension, be it that it has no dot or that
    its only dot leads as in [.mp3], is answered with status 400: the
    empty extension is not supported. *)
Theorem upload_no_extension_400 formats_iter name content w :
  no_extension name →
  upload_audio formats_iter (UploadFile.mk name content) w
  = (w, inl (unsupported formats_iter))
  ∧ http_status (upload_audio formats_iter (UploadFile.mk name content) w).2 = 400.
Proof.
  intros Hno.
  assert ((posixpath.splitext name).2 = "") as Hext.
  { destruct Hno as [H|[H|(rest & -> & H)]];
      auto using splitext_no_dot, splitext_leading_dot. }
  rewrite upload_audio_unsupported; [done|].
  cbn. unfold extension. rewrite Hext.
  apply (proj1 (bool_decide_eq_false _)). vm_compute. reflexivity.
Qed.

Lemma upload_no_extension_400_witness :
  upload_audio allow_list Sample.dotfile (Sample.quiet Sample.fresh)
  = (Sample.quiet Sample.fresh, inl (unsupported allow_list))
  ∧ http_status (upload_audio allow_list Sample.dotfile (Sample.quiet Sample.fresh)).2 = 400.
Proof.
  apply (upload_no_extension_400 allow_list ".mp3").
  right. right. exists "mp3". split; reflexivity.
Defined.

(** ** Writing a file *)

Section Writing.

Implicit Types (s : filesystem) (t : gmap path node) (d k : path).

Lemma write_file_inv s name data s' :
  os.write_file s name data = inr s' →
  ∃ d c, namei.parent s name = inr (d, c)
         ∧ is_special c = false
         ∧ tree s !! (c :: d) ≠ Some Dir
         ∧ s' = set_tree s (<[c :: d := File data]> (tree s)).
Proof.
  unfold os.write_file. destruct (Py.contains _ name); [done|].
  destruct (os.PATH_MAX <=? os.strlen name); [done|].
  destruct (namei.parent s name) as [e|[d c]]; [done|].
  destruct (is_special c) eqn:Hc; [done|].
  destruct (os.NAME_MAX <? os.strlen c); [done|].
  destruct (tree s !! (c :: d)) as [[|]|] eqn:Ht; [|done|];
    intros [= <-]; exists d, c; rewrite ?Ht; done.
Qed.

(** What [open] asks of the name itself. *)
Lemma write_file_name s name data s' d c :
  os.write_file s name data = inr s' → namei.parent s name = inr (d, c) →
  Py.contains (ascii_of_nat 0) name = false
  ∧ os.strlen name < os.PATH_MAX
  ∧ os.strlen c <= os.NAME_MAX.
Proof.
  unfold os.write_file. intros Hw Hpar. rewrite Hpar in Hw.
  destruct (Py.contains _ name); [done|].
  destruct (os.PATH_MAX <=? os.strlen name) eqn:Hp; [done|].
  destruct (is_special c); [done|].
  destruct (os.NAME_MAX <? os.strlen c) eqn:Hn; [done|].
  apply Z.leb_gt in Hp. apply Z.ltb_ge in Hn. done.
Qed.

(** The write, once the name is one that [open] takes. *)
Lemma write_file_eq s name data d c :
  Py.contains (ascii_of_nat 0) name = false →
  os.strlen name < os.PATH_MAX →
  namei.parent s name = inr (d, c) → is_special c = false →
  os.strlen c <= os.NAME_MAX →
  os.write_file s name data
  = match tree s !! (c :: d) with
    | Some Dir => inl (IsADirectoryError name)
    | _ => inr (set_tree s (<[c :: d := File data]> (tree s)))
    end.
Proof.
  intros Hnul Hp Hpar Hc Hn. unfold os.write_file.
  rewrite Hnul, Hpar, Hc.
  rewrite (proj2 (Z.leb_gt _ _) Hp), (proj2 (Z.ltb_ge _ _) Hn). done.
Qed.

(** A walk that arrives passes only directories, so a file put where no
    directory was does not divert it. *)
Lemma walk_insert_file t name cur cs d k data :
  namei.walk t name cur cs = inr d → t !! k ≠ Some Dir →
  namei.walk (<[k := File data]> t) name cur cs = inr d.
Proof.
  intros Hwalk Hk. revert cur Hwalk.
  induction cs as [|c cs IH]; intros cur; cbn; [done|].
  unfold namei.enter.
  destruct (String.eqb c "" || String.eqb c "."); [by apply IH|].
  destruct (String.eqb c ".."); [by apply IH|].
  destruct (t !! (c :: cur)) as [[|]|] eqn:Ht; [done| |done].
  rewrite lookup_insert_ne by congruence. rewrite Ht. by apply IH.
Qed.

Lemma cons_neq_self {A} (x : A) (l : list A) : x :: l ≠ l.
Proof. intros H. apply (f_equal length) in H. simpl in H. lia. Qed.

Lemma node_at_insert_file t k p data :
  t !! k ≠ Some Dir → node_at t p = Some Dir →
  node_at (<[k := File data]> t) p = Some Dir.
Proof.
  intros Hk. destruct p as [|x p]; [done|]. cbn. intros Hp.
  rewrite lookup_insert_ne; [done|]. congruence.
Qed.

Lemma parent_insert_file s name d c data :
  namei.parent s name = inr (d, c) → tree s !! (c :: d) ≠ Some Dir →
  namei.parent (set_tree s (<[c :: d := File data]> (tree s))) name = inr (d, c).
Proof.
  unfold namei.parent. destruct (String.eqb name ""); [done|]. cbn.
  destruct (namei.directory (tree s) _ _) as [e|start] eqn:Hstart; [done|].
  apply directory_inr in Hstart as [-> Hstart].
  destruct (namei.walk _ _ _ _) as [e|d'] eqn:Hwalk; [done|].
  destruct (namei.directory (tree s) _ d') as [e|d''] eqn:Hd; [done|].
  apply directory_inr in Hd as [-> Hd]. intros [= -> <-] Hc.
  rewrite directory_dir by by apply node_at_insert_file.
  rewrite (walk_insert_file _ _ _ _ _ _ _ Hwalk Hc).
  rewrite directory_dir by by apply node_at_insert_file. done.
Qed.

(** What was written is what [stat] finds under the same name. *)
Lemma stat_written s name data s' :
  os.write_file s name data = inr s' →
  ∃ p, os.stat s' name = inr (p, File data) ∧ tree s' !! p = Some (File data).
Proof.
  intros (d & c & Hpar & Hc & Hnd & ->)%write_file_inv.
  exists (c :: d). unfold os.stat.
  rewrite (parent_insert_file _ _ _ _ _ Hpar Hnd), target_valid by done.
  cbn. by rewrite lookup_insert_eq.
Qed.

(** Writing twice under one name leaves what the second write alone
    leaves. *)
Lemma write_file_twice s name a b s1 s2 :
  os.write_file s name a = inr s1 → os.write_file s1 name b = inr s2 →
  os.write_file s name b = inr s2.
Proof.
  intros H1 H2. pose proof H1 as (d & c & Hpar & Hc & Hnd & ->)%write_file_inv.
  destruct (write_file_name _ _ _ _ _ _ H1 Hpar) as (Hnul & Hp & Hn).
  rewrite (write_file_eq _ _ _ d c) in H2;
    [|done|done|by apply parent_insert_file|done|done].
  rewrite (write_file_eq _ _ _ d c) by done.
  revert H2. cbn. rewrite lookup_insert_eq, insert_insert_eq. intros [= <-].
  unfold set_tree. cbn. destruct (tree s !! (c :: d)) as [[|]|]; done.
Qed.

End Writing.

(** ** Successful uploads *)

(** A returned response means the three checks passed and the write went
    through. *)
Lemma upload_audio_ok_inv formats_iter file w w' r :
  upload_audio formats_iter file w = (w', inr r) →
  extension (UploadFile.filename file) ∈ allow_list
  ∧ 0 < Py.len (UploadFile.content file) <= 104857600
  ∧ os.write_file (fs w) (posixpath.join UPLOAD_DIR (UploadFile.filename file))
      (UploadFile.content file) = inr (fs w')
  ∧ r = success file.
Proof.
  intros Hup.
  destruct (decide (extension (UploadFile.filename file) ∈ allow_list)) as [Hext|Hext];
    [|by rewrite upload_audio_unsupported in Hup].
  destruct (Z.lt_trichotomy (Py.len (UploadFile.content file)) 104857600)
    as [Hlt|[Heq|Hgt]]; [| |by rewrite upload_audio_too_large in Hup].
  - destruct (Z.eq_dec (Py.len (UploadFile.content file)) 0) as [H0|H0].
    { rewrite upload_audio_empty in Hup by auto using len_zero. done. }
    pose proof (len_nonneg (UploadFile.content file)).
    rewrite upload_audio_valid in Hup by (done || lia). cbn zeta in Hup.
    destruct (os.write_file _ _ _); [done|]. injection Hup as <- <-.
    repeat split; (done || lia).
  - rewrite upload_audio_valid in Hup by (done || lia). cbn zeta in Hup.
    destruct (os.write_file _ _ _); [done|]. injection Hup as <- <-.
    repeat split; (done || lia).
Qed.

(** C6: two successful uploads under one file name, of the contents [a]
    then [b], leave the filesystem that the upload of [b] alone leaves,
    with the same response; under the stored path there is a regular file
    whose content is [b]. *)
Theorem upload_twice_last_write_wins formats_iter name a b w w1 r1 w2 r2 :
  upload_audio formats_iter (UploadFile.mk name a) w = (w1, inr r1) →
  upload_audio formats_iter (UploadFile.mk name b) w1 = (w2, inr r2) →
  (∃ wb, upload_audio formats_iter (UploadFile.mk name b) w = (wb, inr r2)
         ∧ fs wb = fs w2)
  ∧ ∃ p, os.stat (fs w2) (UploadResponse.file_path r2) = inr (p, File b).
Proof.
  intros (_ & _ & Ha & _)%upload_audio_ok_inv (Hext & Hlen & Hb & ->)%upload_audio_ok_inv.
  cbn in *. split.
  - rewrite upload_audio_valid by done. cbn.
    rewrite (write_file_twice _ _ _ _ _ _ Ha Hb). eexists. split; reflexivity.
  - destruct (stat_written _ _ _ _ Hb) as (p & Hstat & _). eauto.
Qed.

Lemma upload_twice_last_write_wins_witness :
  let w := Sample.quiet Sample.fresh in
  let first := upload_audio allow_list Sample.song w in
  let second :=
    upload_audio allow_list (UploadFile.mk "song.mp3" Sample.other_bytes) first.1 in
  (∃ wb, upload_audio allow_list (UploadFile.mk "song.mp3" Sample.other_bytes) w
         = (wb, inr (success (UploadFile.mk "song.mp3" Sample.other_bytes)))
         ∧ fs wb = fs second.1)
  ∧ ∃ p, os.stat (fs second.1)
           (UploadResponse.file_path (success (UploadFile.mk "song.mp3" Sample.other_bytes)))
         = inr (p, File Sample.other_bytes).
Proof.
  intros w first second.
  apply (upload_twice_last_write_wins allow_list "song.mp3" Sample.ten_bytes
           Sample.other_bytes w first.1 (success Sample.song) second.1).
  - vm_compute. reflexivity.
  - vm_compute. reflexivity.
Defined.

(** ** The listing *)

Lemma list_files_loop_spec names files w :
  list_files_loop names files w = (w, inr (files ++ omap (entry_of (fs w)) names)).
Proof.
  revert files. induction names as [|name names IH]; intros files; cbn.
  { by rewrite app_nil_r. }
  run_handler. unfold entry_of, os.path_isfile, os.path_getsize.
  destruct (os.stat (fs w) _) as [e|[p [data|]]] eqn:E; cbn;
    rewrite ?E, ?IH; try done.
  by rewrite <- app_assoc.
Qed.

Lemma list_files_ok w names :
  os.listdir (fs w) UPLOAD_DIR = inr names →
  list_files w
  = (w, inr {| FilesResponse.total_files := Py.len (omap (entry_of (fs w)) names);
               FilesResponse.files := omap (entry_of (fs w)) names |}).
Proof.
  intros Hls. unfold list_files. run_handler.
  rewrite Hls, list_files_loop_spec. done.
Qed.

Lemma elem_of_entries t d c : c ∈ os.entries t d ↔ is_Some (t !! (c :: d)).
Proof.
  unfold os.entries. rewrite list_elem_of_omap. split.
  - intros ([p n] & Hin & Hc). apply elem_of_map_to_list in Hin. cbn in Hc.
    destruct p as [|c' d']; [done|]. destruct (decide (d' = d)); [|done].
    injection Hc as ->. subst. eauto.
  - intros [n Hn]. exists (c :: d, n). split; [by apply elem_of_map_to_list|].
    cbn. by rewrite decide_True.
Qed.

Lemma audio_format_dot e :
  e ∈ allow_list → String posixpath.extsep (Py.lstrip posixpath.extsep e) = e.
Proof.
  unfold allow_list. rewrite !elem_of_cons, elem_of_nil.
  intros H. repeat (destruct H as [->|H]; [reflexivity|]). done.
Qed.

Lemma parent_relative_cwd s name x :
  Py.startswith posixpath.sep name = false →
  namei.parent s name = inr x → node_at (tree s) (cwd s) = Some Dir.
Proof.
  intros Hrel. unfold namei.parent. destruct (String.eqb name ""); [done|].
  rewrite Hrel. cbn.
  destruct (namei.directory _ _ _) as [e|d] eqn:Hd; [done|].
  by apply directory_inr in Hd as [_ Hd].
Qed.

(** A write under a plain name goes to the storage directory, which is
    there, and puts the file right inside it. *)
Lemma write_file_plain s name data s' :
  plain name →
  os.write_file s (posixpath.join UPLOAD_DIR name) data = inr s' →
  is_special name = false
  ∧ cwd s' = cwd s
  ∧ node_at (tree s') (cwd s') = Some Dir
  ∧ tree s' !! storage_dir s' = Some Dir
  ∧ tree s' = <[name :: storage_dir s := File data]> (tree s).
Proof.
  intros Hplain Hwrite. rewrite join_upload_dir_plain in Hwrite by done.
  apply write_file_inv in Hwrite as (d & c & Hpar & Hc & Hnd & ->).
  assert (node_at (tree s) (cwd s) = Some Dir) as Hcwd
    by (by eapply parent_relative_cwd; [|exact Hpar]).
  assert (tree s !! storage_dir s = Some Dir) as Hdir.
  { destruct (tree s !! storage_dir s) as [[|]|] eqn:E; [|done|];
      destruct (parent_in_upload_dir_absent s name Hplain) as [e He];
      rewrite ?E; congruence. }
  rewrite parent_in_upload_dir in Hpar by done. injection Hpar as <- <-.
  unfold set_tree, storage_dir in *. cbn.
  repeat split; try done.
  - by apply node_at_insert_file.
  - rewrite lookup_insert_ne; [done|]. apply cons_neq_self.
Qed.

(** C1, amended: for a file name without separator, a supported
    extension, a content of 1 to 104857600 bytes and a write that goes
    through, the answer is 200 with the fields of the response as
    specified, the bytes are the content of the file of that name right
    inside the storage directory, and [GET /files] lists the name with the
    same size. *)
Theorem upload_plain_name_stored_and_listed formats_iter file w s' :
  plain (UploadFile.filename file) →
  extension (UploadFile.filename file) ∈ allow_list →
  0 < Py.len (UploadFile.content file) <= 104857600 →
  os.write_file (fs w) (posixpath.join UPLOAD_DIR (UploadFile.filename file))
    (UploadFile.content file) = inr s' →
  upload_stored_and_listed formats_iter file w
  ∧ fs (upload_audio formats_iter file w).1 = s'
  ∧ UploadResponse.filename (success file) = UploadFile.filename file
  ∧ tree s' !! (UploadFile.filename file :: storage_dir s')
    = Some (File (UploadFile.content file)).
Proof.
  intros Hplain Hext Hlen Hwrite.
  destruct (write_file_plain _ _ _ _ Hplain Hwrite)
    as (Hsp & Hcwd' & Hcwd & Hdir & Htree).
  assert (storage_dir s' = storage_dir (fs w)) as Hsd
    by (unfold storage_dir; congruence).
  assert (tree s' !! (UploadFile.filename file :: storage_dir s')
          = Some (File (UploadFile.content file))) as Hfile.
  { rewrite Htree, Hsd. apply lookup_insert_eq. }
  assert (UploadResponse.filename (success file) = UploadFile.filename file) as Hname.
  { cbn. rewrite join_upload_dir_plain by done. by apply basename_join_plain. }
  assert (os.stat s' (posixpath.join UPLOAD_DIR (UploadFile.filename file))
          = inr (UploadFile.filename file :: storage_dir s',
                 File (UploadFile.content file))) as Hstat.
  { rewrite join_upload_dir_plain by done.
    rewrite stat_in_upload_dir by done. by rewrite Hfile. }
  unfold upload_stored_and_listed.
  rewrite upload_audio_valid by done. cbn zeta. rewrite Hwrite.
  split; [|done].
  eexists _, (success file), _. split_and!; try reflexivity.
  - by apply round_hundredths_nearest.
  - by apply audio_format_dot.
  - exists (UploadFile.filename file :: storage_dir s'). split; [|exact Hstat].
    by exists [UploadFile.filename file].
  - apply list_files_ok. cbn. unfold os.listdir.
    rewrite stat_upload_dir, Hcwd, Hdir. reflexivity.
  - exists {| FileEntry.filename := UploadFile.filename file;
              FileEntry.size_mb :=
                Py.round_hundredths (Py.len (UploadFile.content file)) (1024 * 1024);
              FileEntry.path :=
                posixpath.join UPLOAD_DIR (UploadFile.filename file) |}.
    split; [|by rewrite Hname].
    cbn. apply list_elem_of_omap. exists (UploadFile.filename file). split.
    + apply elem_of_entries. by rewrite Hfile.
    + unfold entry_of. by rewrite Hstat.
Qed.

Lemma upload_plain_name_stored_and_listed_witness :
  upload_stored_and_listed allow_list Sample.song (Sample.quiet Sample.fresh)
  ∧ fs (upload_audio allow_list Sample.song (Sample.quiet Sample.fresh)).1
    = Sample.with_song
  ∧ UploadResponse.filename (success Sample.song) = "song.mp3"
  ∧ tree Sample.with_song !! ("song.mp3" :: storage_dir Sample.with_song)
    = Some (File Sample.ten_bytes).
Proof.
  apply (upload_plain_name_stored_and_listed allow_list Sample.song
           (Sample.quiet Sample.fresh) Sample.with_song).
  - reflexivity.
  - apply (bool_decide_unpack _). vm_compute. exact I.
  - vm_compute. split; [reflexivity|discriminate].
  - vm_compute. reflexivity.
Defined.

(** C1 as it is written fails for a file name that leaves the storage
    directory: [../song.mp3] passes the checks and is written, next to the
    storage directory, and the listing that follows is empty. *)
Lemma upload_escaping_name_counterexample :
  extension (UploadFile.filename Sample.escaping) ∈ allow_list
  ∧ 0 < Py.len (UploadFile.content Sample.escaping) <= 104857600
  ∧ (∃ s', os.write_file Sample.fresh
             (posixpath.join UPLOAD_DIR (UploadFile.filename Sample.escaping))
             (UploadFile.content Sample.escaping) = inr s')
  ∧ ¬ upload_stored_and_listed allow_list Sample.escaping (Sample.quiet Sample.fresh).
Proof.
  split; [apply (bool_decide_unpack _); vm_compute; exact I|].
  split; [vm_compute; split; [reflexivity|discriminate]|].
  split; [eexists; vm_compute; reflexivity|].
  intros (w' & r & listing & Hup & _ & _ & _ & _ & _ & _ & _ & _ & Hlist & Hlisted).
  vm_compute in Hup. injection Hup as <- <-.
  vm_compute in Hlist. injection Hlist as <-.
  destruct Hlisted as (e & Hin & _). cbn in Hin. by apply elem_of_nil in Hin.
Qed.

(** ** The health check, case by case *)

Section Health.

Implicit Types (s : filesystem) (w : world).

Lemma mkdir_upload_dir s :
  pathlib.mkdir (pathlib.of_str UPLOAD_DIR) s =
  match node_at (tree s) (cwd s) with
  | Some Dir =>
      match tree s !! storage_dir s with
      | None => inr (with_storage_dir s)
      | Some Dir => inr s
      | Some (File _) => inl (FileExistsError "uploaded_audio")
      end
  | Some (File _) => inl (NotADirectoryError "uploaded_audio")
  | None => inl (FileNotFoundError ".")
  end.
Proof.
  unfold pathlib.mkdir.
  change (pathlib.of_str UPLOAD_DIR) with (pathlib.mkPath false ["uploaded_audio"]).
  cbn [pathlib.absolute pathlib.parts pathlib.mkdir_parts].
  unfold pathlib.mkdir_leaf.
  change (pathlib.to_str (pathlib.mkPath false ["uploaded_audio"]))
    with "uploaded_audio".
  change (pathlib.to_str (pathlib.mkPath false [])) with ".".
  unfold os.mkdir, os.path_isdir, os.stat, namei.parent, namei.directory. cbn.
  destruct (node_at (tree s) (cwd s)) as [[|]|] eqn:E; cbn; rewrite ?E; cbn;
    try done.
  unfold storage_dir.
  destruct (tree s !! ("uploaded_audio" :: cwd s)) as [[|]|] eqn:E'; cbn;
    rewrite ?E, ?E'; done.
Qed.

Lemma with_storage_dir_cwd s :
  node_at (tree s) (cwd s) = Some Dir →
  node_at (tree (with_storage_dir s)) (cwd (with_storage_dir s)) = Some Dir.
Proof.
  cbn. destruct (cwd s) as [|c l] eqn:E; [done|]. cbn. intros Hcwd.
  unfold storage_dir. rewrite E.
  rewrite lookup_insert_ne; [done|]. apply cons_neq_self.
Qed.

(** The storage directory is there: nothing changes. *)
Lemma health_check_present w :
  node_at (tree (fs w)) (cwd (fs w)) = Some Dir →
  tree (fs w) !! storage_dir (fs w) = Some Dir →
  health_check w = (w, inr (healthy (Py.len (regular_names (fs w))))).
Proof.
  intros Hcwd Hdir.
  unfold health_check. run_handler. unfold os.path_exists, os.listdir.
  rewrite stat_upload_dir, Hcwd, Hdir. cbn -[pathlib.mkdir pathlib.of_str os.stat].
  rewrite stat_upload_dir, Hcwd, Hdir. done.
Qed.

(** The storage directory is not there and can be made: it is made, and
    the count is taken after. *)
Lemma health_check_created w :
  node_at (tree (fs w)) (cwd (fs w)) = Some Dir →
  tree (fs w) !! storage_dir (fs w) = None →
  health_check w
  = ({| fs := with_storage_dir (fs w); log := log w |},
     inr (healthy (Py.len (regular_names (with_storage_dir (fs w)))))).
Proof.
  intros Hcwd Hdir.
  pose proof (with_storage_dir_cwd _ Hcwd) as Hcwd'.
  assert (tree (with_storage_dir (fs w)) !! storage_dir (with_storage_dir (fs w))
          = Some Dir) as Hdir' by apply lookup_insert_eq.
  unfold health_check. run_handler. unfold os.path_exists, os.listdir.
  rewrite stat_upload_dir, Hcwd, Hdir. cbn -[pathlib.mkdir pathlib.of_str os.stat].
  rewrite mkdir_upload_dir, Hcwd, Hdir. cbn -[pathlib.mkdir pathlib.of_str os.stat].
  rewrite stat_upload_dir, Hcwd', Hdir'. done.
Qed.

(** In every other case the check fails, and only the log grows. *)
Lemma health_check_failed w :
  node_at (tree (fs w)) (cwd (fs w)) ≠ Some Dir
  ∨ (∃ data, tree (fs w) !! storage_dir (fs w) = Some (File data)) →
  ∃ msg, health_check w
         = (logged (fs w) (log w) [(ERROR, msg)],
            inl (HTTPException 503 "Service unhealthy")).
Proof.
  intros Hbad.
  unfold health_check. run_handler. unfold os.path_exists, os.listdir.
  rewrite stat_upload_dir.
  destruct (node_at (tree (fs w)) (cwd (fs w))) as [[|]|] eqn:Hcwd; cbn -[pathlib.mkdir pathlib.of_str os.stat].
  - rewrite mkdir_upload_dir, Hcwd. eauto.
  - destruct Hbad as [?|[data Hfile]]; [done|]. rewrite Hfile. cbn -[pathlib.mkdir pathlib.of_str os.stat].
    rewrite stat_upload_dir, Hcwd, Hfile. eauto.
  - rewrite mkdir_upload_dir, Hcwd. eauto.
Qed.

End Health.

(** ** Counting the files of the storage directory *)

Section Counting.

Lemma wf_names_valid (t : gmap path node) p n c :
  wf_names t = true → t !! p = Some n → c ∈ p → valid_name c = true.
Proof.
  unfold wf_names. rewrite forallb_forall. intros Hwf Hp Hc.
  specialize (Hwf (p, n)). cbn in Hwf. rewrite forallb_forall in Hwf.
  apply Hwf; [|by apply list_elem_of_In].
  by apply list_elem_of_In, elem_of_map_to_list.
Qed.

Lemma size_filter_list {A} (P : path * A → Prop) `{!∀ x, Decision (P x)}
    (t : gmap path A) :
  size (filter P t) = length (filter P (map_to_list t)).
Proof.
  rewrite map_filter_alt. apply map_size_list_to_map.
  eapply sublist_NoDup; [apply (NoDup_fst_map_to_list t)|].
  apply fmap_sublist, sublist_filter.
Qed.

Lemma length_filter_omap {A B} (h : A → option B) (g : B → bool)
    (P : A → bool) (l : list A) :
  (∀ x, x ∈ l → P x = from_option g false (h x)) →
  length (List.filter g (omap h l)) = length (filter (λ x, Is_true (P x)) l).
Proof.
  induction l as [|a l IH]; intros Hagree; [done|].
  rewrite filter_cons. cbn.
  pose proof (Hagree a (list_elem_of_here _ _)) as Ha.
  assert (∀ x, x ∈ l → P x = from_option g false (h x)) as Hl
    by (intros x Hx; apply Hagree; by right).
  specialize (IH Hl).
  destruct (h a) as [b|]; cbn in *.
  - destruct (g b); rewrite Ha; cbn; rewrite IH; done.
  - rewrite Ha. cbn. done.
Qed.

(** With entry names as they can be, the names that [os.path.isfile]
    accepts are as many as the regular files of the storage
    directory. *)
Lemma regular_names_count s :
  node_at (tree s) (cwd s) = Some Dir →
  tree s !! storage_dir s = Some Dir →
  (∀ c n, tree s !! (c :: storage_dir s) = Some n → valid_name c = true) →
  Py.len (regular_names s) = count_regular_files (tree s) (storage_dir s).
Proof.
  intros Hcwd Hdir Hvalid.
  unfold Py.len, regular_names, count_regular_files, os.entries. f_equal.
  rewrite size_filter_list. apply length_filter_omap.
  intros [p n] Hin. apply elem_of_map_to_list in Hin. cbn.
  destruct p as [|c d]; [done|]. cbn.
  destruct (decide (d = storage_dir s)) as [->|Hne]; cbn.
  - apply Hvalid in Hin as Hc. apply valid_name_spec in Hc as [Hsp Hplain].
    unfold os.path_isfile. rewrite join_upload_dir_plain by done.
    rewrite stat_in_upload_dir, Hin by done.
    rewrite bool_decide_eq_true_2 by done. by destruct n.
  - rewrite bool_decide_eq_false_2 by done. by destruct n.
Qed.

(** A directory is not counted. *)
Lemma count_regular_files_insert_dir (t : gmap path node) d k :
  t !! k = None →
  count_regular_files (<[k := Dir]> t) d = count_regular_files t d.
Proof.
  intros Hk. unfold count_regular_files.
  rewrite map_filter_insert_not'; [done| |].
  - destruct k; cbn; tauto.
  - intros n. by rewrite Hk.
Qed.

End Counting.

(** ** The health check *)

(** C7: a health check that answers reports the status [healthy] and, as
    [total_files], the number of regular files that the storage directory
    holds when the check is called. *)
Theorem health_check_counts_regular_files w w' r :
  wf_names (tree (fs w)) = true →
  health_check w = (w', inr r) →
  StatusResponse.status r = "healthy"
  ∧ StatusResponse.total_files r
    = Some (count_regular_files (tree (fs w)) (storage_dir (fs w))).
Proof.
  intros Hwf Hhc.
  assert (∀ c n, tree (fs w) !! (c :: storage_dir (fs w)) = Some n →
                 valid_name c = true) as Hvalid.
  { intros c n Hc. eapply wf_names_valid; [done..|]. by left. }
  destruct (node_at (tree (fs w)) (cwd (fs w))) as [[|]|] eqn:Hcwd;
    [| |];
    try (destruct (health_check_failed w) as [msg Hf];
         [by left; rewrite Hcwd|]; congruence).
  destruct (tree (fs w) !! storage_dir (fs w)) as [[|]|] eqn:Hdir.
  - destruct (health_check_failed w) as [msg Hf]; [right; eauto|]. congruence.
  - rewrite health_check_present in Hhc by done. injection Hhc as <- <-.
    split; [done|]. cbn. f_equal. by apply regular_names_count.
  - rewrite health_check_created in Hhc by done. injection Hhc as <- <-.
    split; [done|]. cbn. f_equal.
    rewrite regular_names_count.
    + by apply count_regular_files_insert_dir.
    + by apply with_storage_dir_cwd.
    + apply lookup_insert_eq.
    + intros c n. cbn.
      rewrite lookup_insert_ne by (apply not_eq_sym, cons_neq_self).
      apply Hvalid.
Qed.

Lemma health_check_counts_regular_files_witness :
  StatusResponse.status (healthy 2) = "healthy"
  ∧ StatusResponse.total_files (healthy 2)
    = Some (count_regular_files (tree Sample.stocked) (storage_dir Sample.stocked)).
Proof.
  apply (health_check_counts_regular_files (Sample.quiet Sample.stocked)
           (Sample.quiet Sample.stocked) (healthy 2)).
  - vm_compute. reflexivity.
  - vm_compute. reflexivity.
Defined.

(** C8 as it is written fails where the storage directory is missing:
    the health check makes it, so the filesystem is not as it was. *)
Lemma health_check_creates_counterexample :
  ¬ (health_read_only (Sample.quiet Sample.bare)
     ∧ health_idempotent (Sample.quiet Sample.bare)).
Proof.
  intros [Hro _]. unfold health_read_only in Hro.
  apply (f_equal (λ s, tree s !! ["uploaded_audio"; "srv"])) in Hro.
  vm_compute in Hro. discriminate.
Qed.

(** The health check is idempotent, changes no location but that of the
    storage directory and no regular file, and is read-only where the
    storage directory exists. *)
Lemma health_check_keeps w :
  health_idempotent w
  ∧ (os.path_exists (fs w) UPLOAD_DIR = true → health_read_only w)
  ∧ (∀ p, p ≠ storage_dir (fs w) →
          tree (fs (health_check w).1) !! p = tree (fs w) !! p)
  ∧ (∀ p data, tree (fs (health_check w).1) !! p = Some (File data)
               ↔ tree (fs w) !! p = Some (File data)).
Proof.
  assert (∀ w0, (∃ msg, health_check w0
                        = (logged (fs w0) (log w0) [(ERROR, msg)],
                           inl (HTTPException 503 "Service unhealthy"))) →
                health_idempotent w0 ∧ fs (health_check w0).1 = fs w0) as Hfailed.
  { intros w0 [msg Hf]. unfold health_idempotent. rewrite Hf. cbn.
    destruct (node_at (tree (fs w0)) (cwd (fs w0))) as [[|]|] eqn:Hcwd;
      [|destruct (tree (fs w0) !! storage_dir (fs w0)) as [[|]|] eqn:Hdir|].
    3: by rewrite health_check_present in Hf.
    3: by rewrite health_check_created in Hf.
    all: destruct (health_check_failed (logged (fs w0) (log w0) [(ERROR, msg)]))
           as [msg' Hf']; [cbn; rewrite ?Hcwd; (by left) || (right; eauto)|].
    all: by rewrite Hf'. }
  unfold health_read_only, os.path_exists. rewrite stat_upload_dir.
  destruct (node_at (tree (fs w)) (cwd (fs w))) as [[|]|] eqn:Hcwd;
    [|destruct (tree (fs w) !! storage_dir (fs w)) as [[|]|] eqn:Hdir|].
  3: { unfold health_idempotent. rewrite (health_check_present w) by done. cbn.
       by rewrite health_check_present. }
  3: { unfold health_idempotent. rewrite (health_check_created w) by done. cbn.
       rewrite health_check_present; cbn;
         [|by apply with_storage_dir_cwd|apply lookup_insert_eq].
       split_and!; try done.
       - intros p Hp. by rewrite lookup_insert_ne.
       - intros p data. destruct (decide (p = storage_dir (fs w))) as [->|Hp].
         + rewrite lookup_insert_eq, Hdir. done.
         + by rewrite lookup_insert_ne. }
  all: destruct (Hfailed w) as [Hidem Hfs];
    [apply health_check_failed; rewrite ?Hcwd; (by left) || (right; eauto)|];
    rewrite Hfs; split_and!; done.
Qed.

(** The three ways of a health check. *)
Lemma health_check_ways w :
  (node_at (tree (fs w)) (cwd (fs w)) = Some Dir
   ∧ tree (fs w) !! storage_dir (fs w) = Some Dir
   ∧ health_check w = (w, inr (healthy (Py.len (regular_names (fs w))))))
  ∨ (node_at (tree (fs w)) (cwd (fs w)) = Some Dir
     ∧ tree (fs w) !! storage_dir (fs w) = None
     ∧ health_check w
       = ({| fs := with_storage_dir (fs w); log := log w |},
          inr (healthy (Py.len (regular_names (with_storage_dir (fs w)))))))
  ∨ ((node_at (tree (fs w)) (cwd (fs w)) ≠ Some Dir
      ∨ ∃ data, tree (fs w) !! storage_dir (fs w) = Some (File data))
     ∧ ∃ msg, health_check w
              = (logged (fs w) (log w) [(ERROR, msg)],
                 inl (HTTPException 503 "Service unhealthy"))).
Proof.
  destruct (node_at (tree (fs w)) (cwd (fs w))) as [[|]|] eqn:Hcwd;
    [|destruct (tree (fs w) !! storage_dir (fs w)) as [[|]|] eqn:Hdir|].
  3: { left. by rewrite health_check_present. }
  3: { right. left. by rewrite health_check_created. }
  all: right; right; split;
    [first [by left|right; eauto]
    |apply health_check_failed; rewrite ?Hcwd; first [by left|right; eauto]].
Qed.

(** C8, amended: the health check is idempotent, it changes no location
    but that of the storage directory and no regular file at all, and
    where the storage directory exists it leaves the filesystem as it
    was.  Where the storage directory is missing below a working
    directory that is there, it makes the storage directory, nothing
    else, and answers 200.  After every answer of 200 the storage
    directory is there; with any other answer the filesystem is as it
    was. *)
Theorem health_check_idempotent_keeps_files w :
  health_idempotent w
  ∧ (os.path_exists (fs w) UPLOAD_DIR = true → health_read_only w)
  ∧ (∀ p, p ≠ storage_dir (fs w) →
          tree (fs (health_check w).1) !! p = tree (fs w) !! p)
  ∧ (∀ p data, tree (fs (health_check w).1) !! p = Some (File data)
               ↔ tree (fs w) !! p = Some (File data))
  ∧ (node_at (tree (fs w)) (cwd (fs w)) = Some Dir →
     tree (fs w) !! storage_dir (fs w) = None →
     http_status (health_check w).2 = 200
     ∧ cwd (fs (health_check w).1) = cwd (fs w)
     ∧ tree (fs (health_check w).1) = <[storage_dir (fs w) := Dir]> (tree (fs w)))
  ∧ (http_status (health_check w).2 = 200 →
     tree (fs (health_check w).1) !! storage_dir (fs w) = Some Dir)
  ∧ (http_status (health_check w).2 ≠ 200 → fs (health_check w).1 = fs w).
Proof.
  destruct (health_check_keeps w) as (H1 & H2 & H3 & H4).
  split_and!; [done..| | |].
  - intros Hcwd Hdir. by rewrite health_check_created.
  - destruct (health_check_ways w)
      as [(_ & Hdir & ->)|[(_ & _ & ->)|(_ & msg & ->)]]; cbn; [done| |done].
    intros _. apply lookup_insert_eq.
  - destruct (health_check_ways w)
      as [(_ & _ & ->)|[(_ & _ & ->)|(_ & msg & ->)]]; cbn; done.
Qed.

Lemma health_check_idempotent_keeps_files_witness :
  health_idempotent (Sample.quiet Sample.stocked)
  ∧ health_read_only (Sample.quiet Sample.stocked)
  ∧ (http_status (health_check (Sample.quiet Sample.bare)).2 = 200
     ∧ cwd (fs (health_check (Sample.quiet Sample.bare)).1) = cwd Sample.bare
     ∧ tree (fs (health_check (Sample.quiet Sample.bare)).1)
       = <[storage_dir Sample.bare := Dir]> (tree Sample.bare))
  ∧ fs (health_check (Sample.quiet More.blocked)).1 = More.blocked.
Proof.
  destruct (health_check_idempotent_keeps_files (Sample.quiet Sample.stocked))
    as (Hidem & Hro & _).
  destruct (health_check_idempotent_keeps_files (Sample.quiet Sample.bare))
    as (_ & _ & _ & _ & Hmake & _).
  destruct (health_check_idempotent_keeps_files (Sample.quiet More.blocked))
    as (_ & _ & _ & _ & _ & _ & Hkeep).
  split; [exact Hidem|]. split; [|split].
  - apply Hro. vm_compute. reflexivity.
  - apply Hmake; vm_compute; reflexivity.
  - apply Hkeep. vm_compute. discriminate.
Defined.

(** ** The storage directory at the time of an upload *)

(** The upload handler does not make the storage directory: without it,
    every upload that passes the checks under a plain name is answered
    with status 500 and the filesystem stays as it was. *)
Lemma upload_storage_dir_absent formats_iter file w :
  plain (UploadFile.filename file) →
  extension (UploadFile.filename file) ∈ allow_list →
  0 < Py.len (UploadFile.content file) <= 104857600 →
  tree (fs w) !! storage_dir (fs w) ≠ Some Dir →
  http_status (upload_audio formats_iter file w).2 = 500
  ∧ fs (upload_audio formats_iter file w).1 = fs w.
Proof.
  intros Hplain Hext Hlen Hdir. rewrite upload_audio_valid by done. cbn zeta.
  destruct (os.write_file _ _ _) as [e|s'] eqn:Hwrite; [done|].
  apply write_file_plain in Hwrite as (_ & Hcwd & _ & Hdir' & Htree); [|done].
  rewrite Htree in Hdir'. unfold storage_dir in *. rewrite Hcwd in Hdir'.
  rewrite lookup_insert_ne in Hdir' by apply cons_neq_self. done.
Qed.

(** The statement at module level makes the storage directory, and so
    does the health check. *)
Example startup_makes_storage_dir :
  startup (Sample.quiet Sample.bare) = (Sample.quiet Sample.fresh, inr tt)
  ∧ fs (health_check (Sample.quiet Sample.bare)).1 = Sample.fresh.
Proof. split; vm_compute; reflexivity. Qed.

(** C5: the code at the input where it departs from the claim.  The
    storage directory is missing when [song.mp3] arrives with ten bytes:
    the upload is answered with status 500, and the directory is still
    missing afterwards. *)
Theorem upload_does_not_make_storage_dir :
  (upload_audio allow_list Sample.song (Sample.quiet Sample.bare)).2
  = inl (HTTPException 500
           "Internal server error: Failed to save uploaded Audio: [Errno 2] No such file or directory: './uploaded_audio/song.mp3'")
  ∧ fs (upload_audio allow_list Sample.song (Sample.quiet Sample.bare)).1
    = Sample.bare
  ∧ os.path_exists Sample.bare UPLOAD_DIR = false.
Proof. split_and!; vm_compute; reflexivity. Qed.

(** ** Entry names are kept *)

Section Names.

Implicit Types (s : filesystem) (t : gmap path node).

Lemma wf_names_spec t :
  wf_names t = true
  ↔ ∀ p n, t !! p = Some n → Forall (λ c, valid_name c = true) p.
Proof.
  split.
  - intros Hwf p n Hp. apply Forall_forall. intros c Hc.
    by eapply wf_names_valid.
  - intros Hall. unfold wf_names. apply forallb_forall. intros [p n] Hin.
    apply list_elem_of_In, elem_of_map_to_list in Hin. cbn.
    apply forallb_forall. intros c Hc. apply list_elem_of_In in Hc.
    specialize (Hall p n Hin). rewrite Forall_forall in Hall. by apply Hall.
Qed.

Lemma wf_names_insert t k n :
  wf_names t = true → Forall (λ c, valid_name c = true) k →
  wf_names (<[k := n]> t) = true.
Proof.
  rewrite !wf_names_spec. intros Hwf Hk p n' Hp.
  destruct (decide (k = p)) as [<-|Hne]; [done|].
  rewrite lookup_insert_ne in Hp by done. by eapply Hwf.
Qed.

(** The pieces between separators have no separator. *)
Lemma split_plain c (name x : string) :
  x ∈ Py.split c name → Py.contains c x = false.
Proof.
  revert x. induction name as [|a name IH]; cbn; intros x.
  - by intros ->%list_elem_of_singleton.
  - destruct (Ascii.eqb a c) eqn:Ha.
    + intros [->|Hx]%elem_of_cons; [done|by apply IH].
    + pose proof (split_nonempty c name).
      destruct (Py.split c name) as [|y l]; [done|].
      intros [->|Hx]%elem_of_cons; cbn.
      * rewrite Ha. cbn. apply IH. by left.
      * apply IH. by right.
Qed.

Lemma walk_valid t name cur cs d :
  wf_names t = true → Forall (λ c, valid_name c = true) cur →
  namei.walk t name cur cs = inr d → Forall (λ c, valid_name c = true) d.
Proof.
  intros Hwf. revert cur. induction cs as [|c cs IH]; cbn; intros cur Hcur.
  { by intros [= <-]. }
  unfold namei.enter.
  destruct (String.eqb c "" || String.eqb c "."); [by apply IH|].
  destruct (String.eqb c ".."); [apply IH; by destruct Hcur|].
  destruct (t !! (c :: cur)) as [[|]|] eqn:Ht; [done| |done].
  apply IH. by eapply (proj1 (wf_names_spec t)).
Qed.

Lemma parent_valid s name d c :
  wf s → namei.parent s name = inr (d, c) →
  Forall (λ c, valid_name c = true) d ∧ Py.contains posixpath.sep c = false.
Proof.
  intros [Hwf Hcwd]. unfold namei.parent.
  destruct (String.eqb name ""); [done|]. cbn.
  destruct (namei.directory _ _ _) as [e|start] eqn:Hstart; [done|].
  apply directory_inr in Hstart as [-> _].
  destruct (namei.walk _ _ _ _) as [e|d'] eqn:Hwalk; [done|].
  destruct (namei.directory _ _ d') as [e|d''] eqn:Hd; [done|].
  apply directory_inr in Hd as [-> _]. intros [= -> <-]. split.
  - eapply walk_valid; [done| |done]. by destruct (Py.startswith _ _).
  - apply (split_plain _ name).
    pose proof (split_nonempty posixpath.sep name) as Hne.
    destruct (Py.split posixpath.sep name) as [|x l] using rev_ind; [done|].
    rewrite last_last. apply elem_of_app. right. by left.
Qed.

Lemma write_file_wf s name data s' :
  wf s → os.write_file s name data = inr s' → wf s'.
Proof.
  intros Hwf (d & c & Hpar & Hc & _ & ->)%write_file_inv.
  destruct (parent_valid _ _ _ _ Hwf Hpar) as [Hd Hplain].
  destruct Hwf as [Hnames Hcwd]. split; [|done]. cbn.
  apply wf_names_insert; [done|]. constructor; [|done].
  unfold valid_name. by rewrite Hc, Hplain.
Qed.

(** The handlers keep the filesystem well formed. *)
Lemma upload_audio_wf formats_iter file w :
  wf (fs w) → wf (fs (upload_audio formats_iter file w).1).
Proof.
  intros Hwf.
  destruct (upload_audio formats_iter file w) as [w' [e|r]] eqn:Hup; cbn.
  - destruct (decide (extension (UploadFile.filename file) ∈ allow_list))
      as [Hext|Hext]; [|rewrite upload_audio_unsupported in Hup by done; congruence].
    destruct (Z.lt_trichotomy (Py.len (UploadFile.content file)) 104857600)
      as [Hlt|[Heq|Hgt]];
      [| |rewrite upload_audio_too_large in Hup by done; congruence].
    + destruct (Z.eq_dec (Py.len (UploadFile.content file)) 0) as [H0|H0].
      { rewrite upload_audio_empty in Hup by auto using len_zero. congruence. }
      pose proof (len_nonneg (UploadFile.content file)).
      rewrite upload_audio_valid in Hup by (done || lia). cbn zeta in Hup.
      destruct (os.write_file _ _ _); [|done]. by injection Hup as <- _.
    + rewrite upload_audio_valid in Hup by (done || lia). cbn zeta in Hup.
      destruct (os.write_file _ _ _); [|done]. by injection Hup as <- _.
  - apply upload_audio_ok_inv in Hup as (_ & _ & Hwrite & _).
    by eapply write_file_wf.
Qed.

Lemma health_check_wf w : wf (fs w) → wf (fs (health_check w).1).
Proof.
  intros [Hnames Hcwd].
  destruct (node_at (tree (fs w)) (cwd (fs w))) as [[|]|] eqn:Hnode;
    [|destruct (tree (fs w) !! storage_dir (fs w)) as [[|]|] eqn:Hdir|].
  3: by rewrite health_check_present.
  3: { rewrite health_check_created by done. split; [|done]. cbn.
       apply wf_names_insert; [done|]. by constructor. }
  all: destruct (health_check_failed w) as [msg ->];
    [rewrite ?Hnode; (by left) || (right; eauto)|done].
Qed.

End Names.

(** * Further properties of the handlers *)

(** ** The outcomes of an upload *)

Section UploadCases.

Variable formats_iter : list string.
Implicit Types (file : UploadFile.t) (w : world).

(** The four ways of an upload, in the order of the checks. *)
Lemma upload_audio_cases file w :
  ((extension (UploadFile.filename file) ∉ allow_list)
   ∧ upload_audio formats_iter file w = (w, inl (unsupported formats_iter)))
  ∨ (extension (UploadFile.filename file) ∈ allow_list
     ∧ 104857600 < Py.len (UploadFile.content file)
     ∧ upload_audio formats_iter file w
       = (w, inl (HTTPException 413 "File too large. Maximum size is 100.0MB")))
  ∨ (extension (UploadFile.filename file) ∈ allow_list
     ∧ UploadFile.content file = []
     ∧ upload_audio formats_iter file w
       = (w, inl (HTTPException 400 "Empty file uploaded")))
  ∨ (extension (UploadFile.filename file) ∈ allow_list
     ∧ 0 < Py.len (UploadFile.content file) <= 104857600
     ∧ ((∃ s', os.write_file (fs w)
                 (posixpath.join UPLOAD_DIR (UploadFile.filename file))
                 (UploadFile.content file) = inr s'
               ∧ fs (upload_audio formats_iter file w).1 = s'
               ∧ (upload_audio formats_iter file w).2 = inr (success file))
        ∨ (∃ e, os.write_file (fs w)
                  (posixpath.join UPLOAD_DIR (UploadFile.filename file))
                  (UploadFile.content file) = inl e
                ∧ fs (upload_audio formats_iter file w).1 = fs w
                ∧ (upload_audio formats_iter file w).2
                  = inl (HTTPException 500
                           ("Internal server error: "
                            +:+ "Failed to save uploaded Audio: " +:+ str e))))).
Proof.
  destruct (decide (extension (UploadFile.filename file) ∈ allow_list))
    as [Hext|Hext]; [|left; by rewrite upload_audio_unsupported].
  right.
  destruct (Z.lt_trichotomy (Py.len (UploadFile.content file)) 104857600)
    as [Hlt|[Heq|Hgt]]; [| |left; by rewrite upload_audio_too_large].
  - destruct (Z.eq_dec (Py.len (UploadFile.content file)) 0) as [H0|H0].
    { right. left. apply len_zero in H0. by rewrite upload_audio_empty. }
    pose proof (len_nonneg (UploadFile.content file)).
    right. right. split; [done|]. split; [lia|].
    rewrite upload_audio_valid by (done || lia). cbn zeta.
    destruct (os.write_file _ _ _) as [e|s']; [right|left]; eauto.
  - right. right. split; [done|]. split; [lia|].
    rewrite upload_audio_valid by (done || lia). cbn zeta.
    destruct (os.write_file _ _ _) as [e|s']; [right|left]; eauto.
Qed.

(** X1: an upload is answered with a response or with an
    [HTTPException] of status 400, 413 or 500; no other exception leaves
    the handler. *)
Theorem upload_audio_answers file w :
  match (upload_audio formats_iter file w).2 with
  | inr r => r = success file
  | inl (HTTPException c _) => c = 400 ∨ c = 413 ∨ c = 500
  | inl _ => False
  end.
Proof.
  destruct (upload_audio_cases file w)
    as [[_ ->]|[(_ & _ & ->)|[(_ & _ & ->)|(_ & _ & [(s' & _ & _ & ->)|(e & _ & _ & ->)])]]];
    cbn; auto.
Qed.

(** X2: the status is 400 exactly when the extension is not supported or
    the body is empty. *)
Theorem upload_400_iff file w :
  http_status (upload_audio formats_iter file w).2 = 400
  ↔ (extension (UploadFile.filename file) ∉ allow_list)
    ∨ UploadFile.content file = [].
Proof.
  destruct (upload_audio_cases file w)
    as [[Hext ->]|[(Hext & Hlen & ->)|[(Hext & Hlen & ->)
       |(Hext & Hlen & [(s' & _ & _ & ->)|(e & _ & _ & ->)])]]]; cbn.
  1, 3: tauto.
  all: split; [done|]; intros [?|Hnil]; [done|];
    rewrite Hnil in Hlen; unfold Py.len in Hlen; cbn in Hlen; lia.
Qed.

(** X3: an upload that a check rejects, with 400 or 413, leaves the
    world as it was, the log included; an upload past the checks adds
    three lines to the log, the first of which names the file and its
    size, and keeps the lines that were there. *)
Theorem upload_audio_log file w :
  (http_status (upload_audio formats_iter file w).2 = 400
   ∨ http_status (upload_audio formats_iter file w).2 = 413 →
   (upload_audio formats_iter file w).1 = w)
  ∧ (http_status (upload_audio formats_iter file w).2 = 200
     ∨ http_status (upload_audio formats_iter file w).2 = 500 →
     ∃ second third,
       log (upload_audio formats_iter file w).1
       = log w
         ++ [(INFO, "Processing audio file: " +:+ UploadFile.filename file
                    +:+ ", size: "
                    +:+ Py.format_2f
                          (Py.truediv (Py.len (UploadFile.content file)) (1024 * 1024))
                    +:+ "MB");
             second; third]).
Proof.
  destruct (upload_audio_cases file w)
    as [[Hext ->]|[(Hext & Hlen & ->)|[(Hext & Hlen & ->)|(Hext & Hlen & _)]]];
    cbn; try (split; [done|by intros [|]]).
  rewrite upload_audio_valid by done. cbn zeta.
  destruct (os.write_file _ _ _) as [e|s']; cbn; (split; [by intros [|]|eauto]).
Qed.

End UploadCases.

(** ** The response of an upload *)

Section Response.

Implicit Types (c : ascii) (s : string).

Lemma rfind_from_range c s i :
  0 <= i → Py.rfind_from c s i = -1 ∨ i <= Py.rfind_from c s i.
Proof.
  revert i. induction s as [|a s IH]; cbn; intros i Hi; [by left|].
  destruct (IH (i + 1) ltac:(lia)) as [->|Hr]; cbn.
  - destruct (Ascii.eqb a c); [right; lia|by left].
  - rewrite (proj2 (Z.leb_le _ _)) by lia. right. lia.
Qed.

Lemma rfind_from_none c s i :
  0 <= i → Py.rfind_from c s i = -1 → Py.contains c s = false.
Proof.
  revert i. induction s as [|a s IH]; cbn; intros i Hi; [done|].
  destruct (rfind_from_range c s (i + 1) ltac:(lia)) as [Hr|Hr].
  - rewrite Hr. cbn. destruct (Ascii.eqb a c); [lia|].
    intros _. by apply (IH (i + 1)); [lia|].
  - rewrite (proj2 (Z.leb_le _ _)) by lia. lia.
Qed.

(** What follows the last occurrence of a character has none. *)
Lemma drop_after_rfind c s i :
  0 <= i →
  Py.contains c (Py.drop (Z.to_nat (Py.rfind_from c s i + 1 - i)) s) = false.
Proof.
  revert i. induction s as [|a s IH]; intros i Hi.
  { cbn. by destruct (Z.to_nat _). }
  cbn [Py.rfind_from].
  destruct (rfind_from_range c s (i + 1) ltac:(lia)) as [Hr|Hr].
  - rewrite Hr. cbn [Z.leb Z.compare]. apply rfind_from_none in Hr; [|lia].
    destruct (Ascii.eqb a c) eqn:Ha.
    + replace (Z.to_nat (i + 1 - i)) with 1%nat by lia. done.
    + replace (Z.to_nat (-1 + 1 - i)) with 0%nat by lia. cbn. by rewrite Ha.
  - rewrite (proj2 (Z.leb_le _ _)) by lia.
    replace (Z.to_nat (Py.rfind_from c s (i + 1) + 1 - i))
      with (S (Z.to_nat (Py.rfind_from c s (i + 1) + 1 - (i + 1)))) by lia.
    cbn. apply IH. lia.
Qed.

(** The base name of a path has no separator. *)
Lemma basename_plain p : plain (posixpath.basename p).
Proof.
  unfold plain, posixpath.basename, Py.slice_from, Py.rfind.
  pose proof (drop_after_rfind posixpath.sep p 0 ltac:(lia)) as H.
  by rewrite Z.sub_0_r in H.
Qed.

Lemma round_hundredths_bounds n :
  0 <= n <= 104857600 →
  0 <= Py.round_hundredths n (1024 * 1024) <= 10000.
Proof.
  intros Hn.
  pose proof (round_hundredths_nearest n (1024 * 1024) ltac:(lia)) as H.
  lia.
Qed.

Lemma lstrip_allow_list e :
  e ∈ allow_list → Py.lstrip posixpath.extsep e ∈ format_names.
Proof.
  unfold allow_list. rewrite !elem_of_cons, elem_of_nil.
  intros H. unfold format_names.
  repeat (destruct H as [->|H]; [cbn; set_solver|]). done.
Qed.

(** X4: the response of a successful upload has the status [success],
    a size between 0.00 and 100.00, a format among the eight names
    without dot, a file name without separator whatever name was
    uploaded, and a message that ends with that file name. *)
Theorem upload_response_shape formats_iter file w w' r :
  upload_audio formats_iter file w = (w', inr r) →
  UploadResponse.status r = "success"
  ∧ 0 <= UploadResponse.file_size_mb r <= 10000
  ∧ UploadResponse.audio_format r ∈ format_names
  ∧ plain (UploadResponse.filename r)
  ∧ UploadResponse.message r
    = "Successfully uploaded audio file: " +:+ UploadResponse.filename r.
Proof.
  intros (Hext & Hlen & _ & ->)%upload_audio_ok_inv. split_and!; try done.
  - apply round_hundredths_bounds. lia.
  - apply round_hundredths_bounds. lia.
  - by apply lstrip_allow_list.
  - apply basename_plain.
Qed.

Lemma upload_response_shape_witness :
  UploadResponse.status (success Sample.escaping) = "success"
  ∧ 0 <= UploadResponse.file_size_mb (success Sample.escaping) <= 10000
  ∧ UploadResponse.audio_format (success Sample.escaping) ∈ format_names
  ∧ plain (UploadResponse.filename (success Sample.escaping))
  ∧ UploadResponse.message (success Sample.escaping)
    = "Successfully uploaded audio file: "
      +:+ UploadResponse.filename (success Sample.escaping).
Proof.
  apply (upload_response_shape allow_list Sample.escaping
           (Sample.quiet Sample.fresh)
           (upload_audio allow_list Sample.escaping (Sample.quiet Sample.fresh)).1).
  vm_compute. reflexivity.
Defined.

End Response.

(** ** Where an upload writes *)

Section Placement.

Implicit Types (s : filesystem) (w : world) (file : UploadFile.t).

Lemma contains_app c (s1 s2 : string) :
  Py.contains c (s1 +:+ s2) = Py.contains c s1 || Py.contains c s2.
Proof.
  induction s1 as [|a s1 IH]; [done|]. rewrite app_cons. cbn.
  by rewrite IH, orb_assoc.
Qed.

(** A name with a supported extension is an entry name's worth: not
    empty, not [.], not [..]. *)
Lemma extension_not_special name :
  extension name ∈ allow_list → is_special name = false.
Proof.
  intros Hext. destruct (is_special name) eqn:Hsp; [|done].
  unfold is_special in Hsp.
  apply orb_true_iff in Hsp as [[->%String.eqb_eq| ->%String.eqb_eq]%orb_true_iff
                               | ->%String.eqb_eq];
    apply (bool_decide_pack _) in Hext; vm_compute in Hext; done.
Qed.

Lemma nul_free_in_upload_dir name :
  Py.contains (ascii_of_nat 0) (UPLOAD_DIR +:+ String posixpath.sep name)
  = Py.contains (ascii_of_nat 0) name.
Proof.
  change (UPLOAD_DIR +:+ String posixpath.sep name)
    with ((UPLOAD_DIR +:+ String posixpath.sep "") +:+ name).
  rewrite contains_app.
  by replace (Py.contains (ascii_of_nat 0) (UPLOAD_DIR +:+ String posixpath.sep ""))
    with false by (by vm_compute).
Qed.

Lemma strlen_in_upload_dir name :
  os.strlen (UPLOAD_DIR +:+ String posixpath.sep name) = 17 + os.strlen name.
Proof.
  change (UPLOAD_DIR +:+ String posixpath.sep name)
    with ((UPLOAD_DIR +:+ String posixpath.sep "") +:+ name).
  unfold os.strlen. rewrite length_app.
  change (String.length (UPLOAD_DIR +:+ String posixpath.sep "")) with 17%nat.
  lia.
Qed.

Lemma write_file_plain_ok s name data :
  plain name → is_special name = false → nul_free name → short name →
  storage_ready s →
  tree s !! (name :: storage_dir s) ≠ Some Dir →
  os.write_file s (posixpath.join UPLOAD_DIR name) data
  = inr (set_tree s (<[name :: storage_dir s := File data]> (tree s))).
Proof.
  intros Hplain Hsp Hnul Hshort [Hcwd Hdir] Hfree.
  rewrite join_upload_dir_plain by done.
  rewrite (write_file_eq _ _ _ (storage_dir s) name);
    [|by rewrite nul_free_in_upload_dir
     |rewrite strlen_in_upload_dir; unfold short, os.NAME_MAX, os.PATH_MAX in *; lia
     |by apply parent_in_upload_dir|done|done].
  destruct (tree s !! (name :: storage_dir s)) as [[|]|]; done.
Qed.

Lemma write_file_plain_inv s name data s' :
  plain name →
  os.write_file s (posixpath.join UPLOAD_DIR name) data = inr s' →
  nul_free name ∧ short name ∧ storage_ready s
  ∧ tree s !! (name :: storage_dir s) ≠ Some Dir
  ∧ s' = set_tree s (<[name :: storage_dir s := File data]> (tree s)).
Proof.
  intros Hplain Hwrite.
  rewrite join_upload_dir_plain in Hwrite by done.
  pose proof Hwrite as (d & c & Hpar & Hc & Hnd & ->)%write_file_inv.
  destruct (write_file_name _ _ _ _ _ _ Hwrite Hpar) as (Hnul & _ & Hshort).
  rewrite nul_free_in_upload_dir in Hnul.
  assert (node_at (tree s) (cwd s) = Some Dir) as Hcwd
    by (by eapply parent_relative_cwd; [|exact Hpar]).
  assert (tree s !! storage_dir s = Some Dir) as Hdir.
  { destruct (tree s !! storage_dir s) as [[|]|] eqn:E; [|done|];
      destruct (parent_in_upload_dir_absent s name Hplain) as [e He];
      rewrite ?E; congruence. }
  rewrite parent_in_upload_dir in Hpar by done. injection Hpar as <- <-.
  done.
Qed.



(** A name of more than 255 bytes is refused by [open]: the upload is
    answered with 500 though the storage directory is there. *)
Example upload_long_name_500 :
  let name := Py.join "" (repeat "aaaaaaaaaaaaaaaaaaaa" 15) +:+ ".mp3" in
  os.strlen name = 304
  ∧ (upload_audio allow_list (UploadFile.mk name Sample.ten_bytes)
       (Sample.quiet Sample.fresh)).2
    = inl (HTTPException 500
             ("Internal server error: Failed to save uploaded Audio: "
              +:+ str (FileNameTooLong (UPLOAD_DIR +:+ "/" +:+ name)))).
Proof. split; vm_compute; reflexivity. Qed.

(** X6: an upload, whatever its outcome, keeps the working directory,
    deletes nothing, neither replaces nor makes a directory and changes at
    most one location of the tree, where a regular file then is; when the
    answer is 200 that file holds exactly the uploaded bytes. *)
Theorem upload_audio_frame formats_iter file w :
  let t := tree (fs w) in
  let t' := tree (fs (upload_audio formats_iter file w).1) in
  cwd (fs (upload_audio formats_iter file w).1) = cwd (fs w)
  ∧ (∃ k, (∀ p, p ≠ k → t' !! p = t !! p)
          ∧ (t' !! k = t !! k
             ∨ ∃ data, t' !! k = Some (File data)
                       ∧ t !! k ≠ Some Dir
                       ∧ (http_status (upload_audio formats_iter file w).2 = 200 →
                          data = UploadFile.content file)))
  ∧ (∀ p, t !! p = Some Dir ↔ t' !! p = Some Dir)
  ∧ (∀ p, is_Some (t !! p) → is_Some (t' !! p)).
Proof.
  cbn zeta.
  assert (fs (upload_audio formats_iter file w).1 = fs w
          ∨ ∃ d c, tree (fs w) !! (c :: d) ≠ Some Dir
                   ∧ fs (upload_audio formats_iter file w).1
                     = set_tree (fs w)
                         (<[c :: d := File (UploadFile.content file)]> (tree (fs w))))
    as [->|(d & c & Hfree & ->)].
  { destruct (upload_audio_cases formats_iter file w)
      as [[_ ->]|[(_ & _ & ->)|[(_ & _ & ->)
         |(_ & _ & [(s' & Hw & -> & _)|(e & _ & -> & _)])]]]; auto.
    apply write_file_inv in Hw as (d & c & _ & _ & Hfree & ->). eauto. }
  - split_and!; [done| |done..]. exists []. auto.
  - cbn. split_and!; [done|..].
    + exists (c :: d). split; [intros p Hp; by rewrite lookup_insert_ne|].
      right. exists (UploadFile.content file). by rewrite lookup_insert_eq.
    + intros p. destruct (decide (c :: d = p)) as [<-|Hne].
      * rewrite lookup_insert_eq. split; [done|congruence].
      * by rewrite lookup_insert_ne.
    + intros p Hp. destruct (decide (c :: d = p)) as [<-|Hne].
      * rewrite lookup_insert_eq. eauto.
      * by rewrite lookup_insert_ne.
Qed.

(** X7: a file name that starts with the separator is stored under that
    very name, not below [UPLOAD_DIR]: the response gives the name as the
    stored path and the bytes are found there. *)
Theorem upload_absolute_name formats_iter file w w' r :
  Py.startswith posixpath.sep (UploadFile.filename file) = true →
  upload_audio formats_iter file w = (w', inr r) →
  UploadResponse.file_path r = UploadFile.filename file
  ∧ ∃ p, os.stat (fs w') (UploadFile.filename file)
         = inr (p, File (UploadFile.content file)).
Proof.
  intros Habs (_ & _ & Hw & ->)%upload_audio_ok_inv.
  assert (posixpath.join UPLOAD_DIR (UploadFile.filename file)
          = UploadFile.filename file) as Hjoin
    by (unfold posixpath.join; by rewrite Habs).
  cbn. rewrite Hjoin in *. split; [done|].
  destruct (stat_written _ _ _ _ Hw) as (p & Hstat & _). eauto.
Qed.

Lemma upload_absolute_name_witness :
  UploadResponse.file_path (success More.rooted) = "/srv/song.mp3"
  ∧ ∃ p, os.stat
           (fs (upload_audio allow_list More.rooted (Sample.quiet Sample.fresh)).1)
           "/srv/song.mp3"
         = inr (p, File Sample.ten_bytes).
Proof.
  apply (upload_absolute_name allow_list More.rooted (Sample.quiet Sample.fresh)
           (upload_audio allow_list More.rooted (Sample.quiet Sample.fresh)).1).
  - reflexivity.
  - vm_compute. reflexivity.
Defined.

End Placement.

(** ** The listing and the health check, whatever the filesystem *)

Section Listing.

Implicit Types (s : filesystem) (w : world).

Lemma list_files_cases w :
  list_files w =
  match os.listdir (fs w) UPLOAD_DIR with
  | inr names =>
      (w, inr {| FilesResponse.total_files := Py.len (omap (entry_of (fs w)) names);
                 FilesResponse.files := omap (entry_of (fs w)) names |})
  | inl e =>
      (logged (fs w) (log w) [(ERROR, "Error listing files: " +:+ str e)],
       inl (HTTPException 500 ("Failed to list files: " +:+ str e)))
  end.
Proof.
  destruct (os.listdir (fs w) UPLOAD_DIR) as [e|names] eqn:Hls.
  - unfold list_files. run_handler. by rewrite Hls.
  - by apply list_files_ok.
Qed.

(** [os.listdir(UPLOAD_DIR)] answers exactly when the storage directory
    is there, with its entries. *)
Lemma listdir_upload_dir s :
  (storage_ready s
   ∧ os.listdir s UPLOAD_DIR = inr (os.entries (tree s) (storage_dir s)))
  ∨ (¬ storage_ready s ∧ ∃ e, os.listdir s UPLOAD_DIR = inl e).
Proof.
  unfold storage_ready, os.listdir. rewrite stat_upload_dir.
  destruct (node_at (tree s) (cwd s)) as [[|]|];
    [right; split; [by intros []|eauto]| |right; split; [by intros []|eauto]].
  destruct (tree s !! storage_dir s) as [[|]|];
    [right; split; [by intros []|eauto]|by left
    |right; split; [by intros []|eauto]].
Qed.

(** X8: the listing never changes the filesystem.  It answers 200
    exactly when the storage directory is there, and then leaves the log
    alone too and reports as [total_files] the length of [files];
    otherwise it answers 500 with the message of the error of
    [os.listdir] in the detail and one more line in the log. *)
Theorem list_files_answers w :
  fs (list_files w).1 = fs w
  ∧ (http_status (list_files w).2 = 200 ↔ storage_ready (fs w))
  ∧ match (list_files w).2 with
    | inr l =>
        (list_files w).1 = w
        ∧ FilesResponse.total_files l = Py.len (FilesResponse.files l)
    | inl e =>
        ∃ cause, os.listdir (fs w) UPLOAD_DIR = inl cause
                 ∧ e = HTTPException 500 ("Failed to list files: " +:+ str cause)
                 ∧ log (list_files w).1
                   = log w ++ [(ERROR, "Error listing files: " +:+ str cause)]
    end.
Proof.
  rewrite list_files_cases.
  destruct (listdir_upload_dir (fs w)) as [[Hready ->]|[Hnot [e ->]]]; cbn.
  - split_and!; done.
  - split_and!; [done|split; [done|tauto]|eauto].
Qed.

(** The entry of a name is there exactly when [os.path.isfile] accepts
    the name. *)
Lemma entry_of_isfile s name :
  is_Some (entry_of s name)
  ↔ os.path_isfile s (posixpath.join UPLOAD_DIR name) = true.
Proof.
  unfold entry_of, os.path_isfile.
  destruct (os.stat s _) as [e|[p [data|]]]; cbn; split;
    (done || by intros []) || eauto.
Qed.

Lemma length_omap_entry_of s names :
  length (omap (entry_of s) names)
  = length (List.filter (λ f, os.path_isfile s (posixpath.join UPLOAD_DIR f)) names).
Proof.
  induction names as [|name names IH]; [done|]. cbn.
  pose proof (entry_of_isfile s name) as Hiff.
  destruct (entry_of s name) as [e|];
    destruct (os.path_isfile s _); cbn; rewrite ?IH; try done.
  - destruct Hiff as [Hiff _]. by specialize (Hiff (mk_is_Some _ _ eq_refl)).
  - destruct Hiff as [_ Hiff]. by destruct (Hiff eq_refl).
Qed.

Lemma entry_of_filename s name e :
  entry_of s name = Some e → FileEntry.filename e = name.
Proof.
  unfold entry_of. destruct (os.stat s _) as [?|[p [data|]]]; [done| |done].
  by intros [= <-].
Qed.

(** With the storage directory there, the entry of a valid name is that
    of the regular file of this name. *)
Lemma entry_of_valid s name :
  storage_ready s → valid_name name = true →
  entry_of s name
  = match tree s !! (name :: storage_dir s) with
    | Some (File data) => Some (entry_for name data)
    | _ => None
    end.
Proof.
  intros [Hcwd Hdir] [Hsp Hplain]%valid_name_spec. unfold entry_of, entry_for.
  rewrite join_upload_dir_plain, stat_in_upload_dir by done.
  by destruct (tree s !! (name :: storage_dir s)) as [[|]|].
Qed.

(** X9: where entry names are valid, a listing that answers holds
    exactly the regular files that are right inside the storage
    directory, each with its name, its size rounded to hundredths of a
    megabyte and its path below [UPLOAD_DIR]; subdirectories are left
    out. *)
Theorem list_files_exact w w' l :
  wf_names (tree (fs w)) = true →
  list_files w = (w', inr l) →
  ∀ e, e ∈ FilesResponse.files l
       ↔ ∃ name data,
           tree (fs w) !! (name :: storage_dir (fs w)) = Some (File data)
           ∧ e = entry_for name data.
Proof.
  intros Hwf Hlist e. rewrite list_files_cases in Hlist.
  destruct (listdir_upload_dir (fs w)) as [[Hready Hls]|[_ [err Hls]]];
    rewrite Hls in Hlist; [|done].
  injection Hlist as _ <-. cbn. rewrite list_elem_of_omap. split.
  - intros (name & Hin & He). apply elem_of_entries in Hin as [n Hn].
    rewrite entry_of_valid in He;
      [|done|eapply wf_names_valid; [done..|by left]].
    rewrite Hn in He. destruct n as [data|]; [|done].
    injection He as <-. eauto.
  - intros (name & data & Hn & ->). exists name. split.
    + apply elem_of_entries. by rewrite Hn.
    + rewrite entry_of_valid;
        [by rewrite Hn|done|eapply wf_names_valid; [done..|by left]].
Qed.

Lemma list_files_exact_witness :
  entry_for "a.mp3" (repeat x01 3)
    ∈ FilesResponse.files
        {| FilesResponse.total_files := 2;
           FilesResponse.files :=
             omap (entry_of Sample.stocked)
               (os.entries (tree Sample.stocked) (storage_dir Sample.stocked)) |}
  ↔ ∃ name data,
      tree (fs (Sample.quiet Sample.stocked))
        !! (name :: storage_dir (fs (Sample.quiet Sample.stocked)))
      = Some (File data)
      ∧ entry_for "a.mp3" (repeat x01 3) = entry_for name data.
Proof.
  apply (list_files_exact (Sample.quiet Sample.stocked) (Sample.quiet Sample.stocked)).
  - vm_compute. reflexivity.
  - vm_compute. reflexivity.
Defined.

(** The entries of a directory are distinct names. *)
Lemma NoDup_entries (t : gmap path node) d : NoDup (os.entries t d).
Proof.
  unfold os.entries. pose proof (NoDup_fst_map_to_list t) as Hnd.
  induction (map_to_list t) as [|[p n] l IH]; [constructor|].
  rewrite fmap_cons in Hnd. apply NoDup_cons in Hnd as [Hp Hnd]. cbn.
  destruct p as [|c d']; [by apply IH|]. cbn.
  destruct (decide (d' = d)) as [->|]; [|by apply IH].
  apply NoDup_cons. split; [|by apply IH].
  intros ([q m] & Hin & Hq)%list_elem_of_omap. cbn in Hq.
  destruct q as [|c' d'']; [done|]. destruct (decide (d'' = d)); [|done].
  injection Hq as ->. subst. apply Hp.
  apply list_elem_of_fmap. by exists (c :: d, m).
Qed.

(** X10: a listing that answers names no file twice. *)
Theorem list_files_distinct w w' l :
  list_files w = (w', inr l) →
  NoDup (FileEntry.filename <$> FilesResponse.files l).
Proof.
  intros Hlist. rewrite list_files_cases in Hlist.
  destruct (listdir_upload_dir (fs w)) as [[_ Hls]|[_ [err Hls]]];
    rewrite Hls in Hlist; [|done].
  injection Hlist as _ <-. cbn.
  apply (sublist_NoDup _ (os.entries (tree (fs w)) (storage_dir (fs w))));
    [apply NoDup_entries|].
  generalize (os.entries (tree (fs w)) (storage_dir (fs w))). intros names.
  induction names as [|name names IH]; [constructor|]. cbn.
  destruct (entry_of (fs w) name) as [e|] eqn:He; cbn.
  - rewrite (entry_of_filename _ _ _ He). by apply sublist_skip.
  - by apply sublist_cons.
Qed.

Lemma list_files_distinct_witness :
  NoDup (FileEntry.filename
           <$> FilesResponse.files
                 {| FilesResponse.total_files := 2;
                    FilesResponse.files :=
                      omap (entry_of Sample.stocked)
                        (os.entries (tree Sample.stocked)
                           (storage_dir Sample.stocked)) |}).
Proof.
  apply (list_files_distinct (Sample.quiet Sample.stocked)
           (Sample.quiet Sample.stocked)).
  vm_compute. reflexivity.
Defined.

(** A health check that answers leaves the storage directory in place
    and counts the names of it that [os.path.isfile] accepts. *)
Lemma health_check_ok_inv w w' h :
  health_check w = (w', inr h) →
  storage_ready (fs w')
  ∧ log w' = log w
  ∧ h = healthy (Py.len (regular_names (fs w')))
  ∧ (fs w' = fs w
     ∨ (tree (fs w) !! storage_dir (fs w) = None
        ∧ fs w' = with_storage_dir (fs w))).
Proof.
  intros Hhc.
  destruct (node_at (tree (fs w)) (cwd (fs w))) as [[|]|] eqn:Hcwd;
    [|destruct (tree (fs w) !! storage_dir (fs w)) as [[|]|] eqn:Hdir|].
  3: { rewrite health_check_present in Hhc by done. injection Hhc as <- <-.
       split_and!; auto. by split. }
  3: { rewrite health_check_created in Hhc by done. injection Hhc as <- <-.
       split_and!; auto. split; [by apply with_storage_dir_cwd|].
       apply lookup_insert_eq. }
  all: destruct (health_check_failed w) as [msg Hf];
    [rewrite ?Hcwd; (by left) || (right; eauto)|congruence].
Qed.

(** X11: the two counts agree: after a health check that answers, the
    listing answers too and its [total_files] is the one the health check
    reported. *)
Theorem health_check_agrees_with_listing w w' h :
  health_check w = (w', inr h) →
  ∃ l, list_files w' = (w', inr l)
       ∧ StatusResponse.total_files h = Some (FilesResponse.total_files l).
Proof.
  intros (Hready & _ & -> & _)%health_check_ok_inv.
  rewrite list_files_cases.
  destruct (listdir_upload_dir (fs w')) as [[_ ->]|[Hnot _]]; [|done].
  eexists. split; [done|]. cbn. f_equal. unfold Py.len, regular_names.
  by rewrite length_omap_entry_of.
Qed.

Lemma health_check_agrees_with_listing_witness :
  ∃ l, list_files (health_check (Sample.quiet Sample.bare)).1
       = ((health_check (Sample.quiet Sample.bare)).1, inr l)
       ∧ StatusResponse.total_files (healthy 0)
         = Some (FilesResponse.total_files l).
Proof.
  apply (health_check_agrees_with_listing (Sample.quiet Sample.bare)).
  vm_compute. reflexivity.
Defined.

(** X12: a health check answers with a response or with exactly
    [HTTPException(503, "Service unhealthy")].  A response comes with the
    log as it was; the exception comes with the filesystem as it was and
    one more line in the log, and the detail tells nothing of the
    cause. *)
Theorem health_check_answers w :
  match (health_check w).2 with
  | inr h =>
      log (health_check w).1 = log w
      ∧ StatusResponse.status h = "healthy"
      ∧ ∃ n, StatusResponse.total_files h = Some n ∧ 0 <= n
  | inl e =>
      e = HTTPException 503 "Service unhealthy"
      ∧ fs (health_check w).1 = fs w
      ∧ ∃ line, log (health_check w).1 = log w ++ [(ERROR, line)]
  end.
Proof.
  destruct (health_check w) as [w' [e|h]] eqn:Hhc; cbn.
  - destruct (node_at (tree (fs w)) (cwd (fs w))) as [[|]|] eqn:Hcwd;
      [|destruct (tree (fs w) !! storage_dir (fs w)) as [[|]|] eqn:Hdir|].
    3: by rewrite health_check_present in Hhc.
    3: by rewrite health_check_created in Hhc.
    all: destruct (health_check_failed w) as [msg Hf];
      [rewrite ?Hcwd; (by left) || (right; eauto)|];
      rewrite Hf in Hhc; injection Hhc as <- <-; cbn; eauto.
  - apply health_check_ok_inv in Hhc as (_ & Hlog & -> & _).
    split_and!; [done..|]. eexists. split; [done|apply len_nonneg].
Qed.

End Listing.

(** ** How the handlers compose *)

Section Composition.

Variable formats_iter : list string.
Implicit Types (s : filesystem) (w : world) (file : UploadFile.t).

Lemma storage_ready_insert_file s k data :
  storage_ready s → tree s !! k ≠ Some Dir →
  storage_ready (set_tree s (<[k := File data]> (tree s))).
Proof.
  intros [Hcwd Hdir] Hk. split; cbn.
  - by apply node_at_insert_file.
  - unfold storage_dir in *. cbn.
    rewrite lookup_insert_ne; [done|]. by intros ->.
Qed.

(** An upload that passes the checks under a plain name, where nothing
    stands in its way, is answered with the response. *)
Lemma upload_audio_plain_ok file w :
  plain (UploadFile.filename file) →
  extension (UploadFile.filename file) ∈ allow_list →
  0 < Py.len (UploadFile.content file) <= 104857600 →
  nul_free (UploadFile.filename file) →
  short (UploadFile.filename file) →
  storage_ready (fs w) →
  tree (fs w) !! (UploadFile.filename file :: storage_dir (fs w)) ≠ Some Dir →
  (upload_audio formats_iter file w).2 = inr (success file)
  ∧ fs (upload_audio formats_iter file w).1
    = set_tree (fs w)
        (<[UploadFile.filename file :: storage_dir (fs w)
           := File (UploadFile.content file)]> (tree (fs w))).
Proof.
  intros Hplain Hext Hlen Hnul Hshort Hready Hfree.
  rewrite upload_audio_valid by done. cbn zeta.
  rewrite write_file_plain_ok by (done || by apply extension_not_special).
  done.
Qed.

(** X13: the health check repairs what the upload does not.  Where the
    storage directory is missing, an upload that passes the checks under a
    plain name is answered with 500; once a health check has answered, the
    storage directory is there and, in the environment of the model, the
    same upload is answered with 200 when its name has at most 255 bytes
    and no NUL character and no directory of that name stands in the
    storage directory. *)
Theorem health_check_then_upload file w w1 h :
  health_check w = (w1, inr h) →
  plain (UploadFile.filename file) →
  extension (UploadFile.filename file) ∈ allow_list →
  0 < Py.len (UploadFile.content file) <= 104857600 →
  nul_free (UploadFile.filename file) →
  short (UploadFile.filename file) →
  tree (fs w1) !! (UploadFile.filename file :: storage_dir (fs w1)) ≠ Some Dir →
  (tree (fs w) !! storage_dir (fs w) = None →
   http_status (upload_audio formats_iter file w).2 = 500)
  ∧ storage_ready (fs w1)
  ∧ http_status (upload_audio formats_iter file w1).2 = 200.
Proof.
  intros (Hready & _ & _ & _)%health_check_ok_inv Hplain Hext Hlen Hnul Hshort Hfree.
  split_and!; [|done|].
  - intros Hnone. apply upload_storage_dir_absent; [done..|]. by rewrite Hnone.
  - by destruct (upload_audio_plain_ok file w1) as [-> _].
Qed.

Lemma count_regular_files_insert_file (t : gmap path node) d name data :
  t !! (name :: d) ≠ Some Dir →
  count_regular_files (<[name :: d := File data]> t) d
  = count_regular_files t d
    + match t !! (name :: d) with Some _ => 0 | None => 1 end.
Proof.
  intros Hfree. unfold count_regular_files.
  rewrite map_filter_insert_True by (cbn; by rewrite bool_decide_eq_true_2).
  destruct (t !! (name :: d)) as [[old|]|] eqn:Ht; [|done|].
  - rewrite map_size_insert_Some; [lia|]. exists (File old).
    apply map_lookup_filter_Some. split; [done|].
    cbn. by rewrite bool_decide_eq_true_2.
  - rewrite map_size_insert_None; [lia|].
    apply map_lookup_filter_None. by left.
Qed.

(** X14: where entry names are valid, after a successful upload under a
    plain name the health check reports one file more than the storage
    directory held if the name is new, and as many if the upload replaced
    a file. *)
Theorem upload_then_health_check file w w' r :
  wf_names (tree (fs w)) = true →
  plain (UploadFile.filename file) →
  upload_audio formats_iter file w = (w', inr r) →
  (health_check w').2
  = inr (healthy
           (count_regular_files (tree (fs w)) (storage_dir (fs w))
            + match tree (fs w) !! (UploadFile.filename file :: storage_dir (fs w))
              with Some _ => 0 | None => 1 end)).
Proof.
  intros Hwf Hplain (Hext & _ & Hw & _)%upload_audio_ok_inv.
  apply write_file_plain_inv in Hw as (_ & _ & Hready & Hfree & Hfs); [|done].
  destruct (storage_ready_insert_file _ _ (UploadFile.content file) Hready Hfree)
    as [Hcwd' Hdir'].
  rewrite <- Hfs in Hcwd', Hdir'.
  rewrite health_check_present by done. cbn. do 2 f_equal.
  rewrite regular_names_count; [|done..|].
  - rewrite Hfs. cbn. fold (storage_dir (fs w)).
    by apply count_regular_files_insert_file.
  - intros c n. rewrite Hfs. cbn. fold (storage_dir (fs w)).
    destruct (decide (c = UploadFile.filename file)) as [->|Hne].
    + intros _. unfold valid_name.
      rewrite (extension_not_special _ Hext). by rewrite Hplain.
    + rewrite lookup_insert_ne by congruence.
      intros Hc. eapply wf_names_valid; [done..|by left].
Qed.

(** X15: uploads under two different plain names do not depend on their
    order: if one then the other succeeds, so does the other then the
    one, with the same responses and the same filesystem in the end. *)
Theorem uploads_commute file1 file2 w w1 w12 r1 r2 :
  plain (UploadFile.filename file1) →
  plain (UploadFile.filename file2) →
  UploadFile.filename file1 ≠ UploadFile.filename file2 →
  upload_audio formats_iter file1 w = (w1, inr r1) →
  upload_audio formats_iter file2 w1 = (w12, inr r2) →
  ∃ w2 w21,
    upload_audio formats_iter file2 w = (w2, inr r2)
    ∧ upload_audio formats_iter file1 w2 = (w21, inr r1)
    ∧ fs w21 = fs w12.
Proof.
  intros Hp1 Hp2 Hne
    (Hext1 & Hlen1 & Hw1 & ->)%upload_audio_ok_inv
    (Hext2 & Hlen2 & Hw2 & ->)%upload_audio_ok_inv.
  apply write_file_plain_inv in Hw1
    as (Hnul1 & Hshort1 & Hready & Hfree1 & Hfs1); [|done].
  apply write_file_plain_inv in Hw2
    as (Hnul2 & Hshort2 & Hready1 & Hfree2 & Hfs2); [|done].
  rewrite Hfs1 in Hfree2. cbn in Hfree2. fold (storage_dir (fs w)) in Hfree2.
  rewrite lookup_insert_ne in Hfree2 by congruence.
  destruct (upload_audio_plain_ok file2 w) as [Hr2 Hs2]; [done..|].
  destruct (upload_audio formats_iter file2 w) as [w2 res2] eqn:Hup2.
  cbn in Hr2, Hs2. subst res2.
  destruct (upload_audio_plain_ok file1 w2) as [Hr1 Hs1]; [done..| | |].
  { rewrite Hs2. by apply storage_ready_insert_file. }
  { rewrite Hs2. cbn. fold (storage_dir (fs w)).
    rewrite lookup_insert_ne by congruence. done. }
  destruct (upload_audio formats_iter file1 w2) as [w21 res1] eqn:Hup1.
  cbn in Hr1, Hs1. subst res1.
  exists w2, w21. split_and!; [done..|].
  rewrite Hs1, Hs2, Hfs2, Hfs1. cbn. fold (storage_dir (fs w)).
  unfold set_tree. cbn. f_equal. apply insert_insert_ne. congruence.
Qed.

End Composition.

Lemma health_check_then_upload_witness :
  (tree (fs (Sample.quiet Sample.bare)) !! storage_dir (fs (Sample.quiet Sample.bare))
   = None →
   http_status (upload_audio allow_list Sample.song (Sample.quiet Sample.bare)).2
   = 500)
  ∧ storage_ready (fs (health_check (Sample.quiet Sample.bare)).1)
  ∧ http_status
      (upload_audio allow_list Sample.song
         (health_check (Sample.quiet Sample.bare)).1).2 = 200.
Proof.
  apply (health_check_then_upload allow_list Sample.song (Sample.quiet Sample.bare)
           (health_check (Sample.quiet Sample.bare)).1 (healthy 0)).
  - vm_compute. reflexivity.
  - reflexivity.
  - apply (bool_decide_unpack _). vm_compute. exact I.
  - vm_compute. split; [reflexivity|discriminate].
  - reflexivity.
  - vm_compute. discriminate.
  - vm_compute. discriminate.
Defined.

Lemma upload_then_health_check_witness :
  (health_check (upload_audio allow_list More.c_ogg (Sample.quiet Sample.stocked)).1).2
  = inr (healthy
           (count_regular_files (tree Sample.stocked) (storage_dir Sample.stocked)
            + match tree Sample.stocked !! ("c.ogg" :: storage_dir Sample.stocked)
              with Some _ => 0 | None => 1 end)).
Proof.
  apply (upload_then_health_check allow_list More.c_ogg (Sample.quiet Sample.stocked)
           _ (success More.c_ogg)).
  - vm_compute. reflexivity.
  - reflexivity.
  - vm_compute. reflexivity.
Defined.

Lemma uploads_commute_witness :
  ∃ w2 w21,
    upload_audio allow_list More.c_ogg (Sample.quiet Sample.fresh)
    = (w2, inr (success More.c_ogg))
    ∧ upload_audio allow_list Sample.song w2 = (w21, inr (success Sample.song))
    ∧ fs w21
      = fs (upload_audio allow_list More.c_ogg
              (upload_audio allow_list Sample.song (Sample.quiet Sample.fresh)).1).1.
Proof.
  apply (uploads_commute allow_list Sample.song More.c_ogg (Sample.quiet Sample.fresh)
           (upload_audio allow_list Sample.song (Sample.quiet Sample.fresh)).1).
  - reflexivity.
  - reflexivity.
  - discriminate.
  - vm_compute. reflexivity.
  - vm_compute. reflexivity.
Defined.

(** ** The start of the module and the root *)

Section Start.

Implicit Types (s : filesystem) (w : world).

(** X16: the statement at module level either fails and leaves the
    world as it was, the storage directory then not being there, or it
    leaves the storage directory in place, the log and every other
    location as they were, and running it again changes nothing. *)
Theorem startup_outcome w :
  match (startup w).2 with
  | inr _ =>
      storage_ready (fs (startup w).1)
      ∧ log (startup w).1 = log w
      ∧ (∀ p, p ≠ storage_dir (fs w) →
              tree (fs (startup w).1) !! p = tree (fs w) !! p)
      ∧ startup (startup w).1 = ((startup w).1, inr tt)
  | inl _ => (startup w).1 = w ∧ ¬ storage_ready (fs w)
  end.
Proof.
  unfold startup, effect. rewrite mkdir_upload_dir.
  destruct (node_at (tree (fs w)) (cwd (fs w))) as [[|]|] eqn:Hcwd; cbn -[pathlib.mkdir pathlib.of_str];
    [split; [done|intros [? _]; congruence]|
    |split; [done|intros [? _]; congruence]].
  destruct (tree (fs w) !! storage_dir (fs w)) as [[|]|] eqn:Hdir; cbn -[pathlib.mkdir pathlib.of_str].
  - split; [done|]. intros [_ ?]. congruence.
  - split_and!; [by split|done|done|].
    rewrite mkdir_upload_dir, Hcwd, Hdir. by destruct w.
  - pose proof (with_storage_dir_cwd _ Hcwd) as Hcwd'.
    assert (tree (with_storage_dir (fs w)) !! storage_dir (with_storage_dir (fs w))
            = Some Dir) as Hdir' by apply lookup_insert_eq.
    split_and!; [by split|done|intros p Hp; by rewrite lookup_insert_ne|].
    by rewrite mkdir_upload_dir, Hcwd', Hdir'.
Qed.

(** X17: what the root advertises is what the upload accepts.  When the
    iteration over the set of supported formats yields its members, an
    upload with a body that is not empty is answered with 400 exactly
    when the lower-cased extension of its file name is not among the
    [supported_formats] of the root's answer; the root itself always
    answers and leaves the world as it was. *)
Theorem root_advertises_accepted formats_iter file w :
  (∀ e, e ∈ formats_iter ↔ e ∈ SUPPORTED_AUDIO_FORMATS) →
  UploadFile.content file ≠ [] →
  ∃ r, root formats_iter w = (w, inr r)
       ∧ (http_status (upload_audio formats_iter file w).2 = 400
          ↔ extension (UploadFile.filename file)
            ∉ RootResponse.supported_formats r).
Proof.
  intros Hiter Hbody. eexists. split; [reflexivity|]. cbn.
  rewrite Hiter, supported_allow_list.
  destruct (upload_audio_cases formats_iter file w)
    as [[Hext ->]|[(Hext & Hlen & ->)|[(Hext & Hlen & ->)
       |(Hext & Hlen & [(s' & _ & _ & ->)|(e & _ & _ & ->)])]]]; cbn;
    (done || tauto).
Qed.

Lemma root_advertises_accepted_witness :
  ∃ r, root allow_list (Sample.quiet Sample.fresh) = (Sample.quiet Sample.fresh, inr r)
       ∧ (http_status
            (upload_audio allow_list Sample.notes (Sample.quiet Sample.fresh)).2 = 400
          ↔ extension (UploadFile.filename Sample.notes)
            ∉ RootResponse.supported_formats r).
Proof.
  apply (root_advertises_accepted allow_list Sample.notes (Sample.quiet Sample.fresh)).
  - intros e. symmetry. apply supported_allow_list.
  - discriminate.
Defined.

End Start.

(** ** Entry names throughout *)

(** X18: every handler, and the statement at module level, keeps the
    filesystem made of entry names: whatever name is uploaded, no entry
    comes to be that is empty, [.], [..] or holds a separator. *)
Theorem handlers_keep_names formats_iter file w :
  wf (fs w) →
  wf (fs (upload_audio formats_iter file w).1)
  ∧ wf (fs (health_check w).1)
  ∧ wf (fs (list_files w).1)
  ∧ wf (fs (startup w).1).
Proof.
  intros Hwf. split_and!.
  - by apply upload_audio_wf.
  - by apply health_check_wf.
  - rewrite list_files_cases. by destruct (os.listdir _ _).
  - unfold startup, effect. rewrite mkdir_upload_dir.
    destruct (node_at (tree (fs w)) (cwd (fs w))) as [[|]|]; [done| |done].
    destruct (tree (fs w) !! storage_dir (fs w)) as [[|]|]; [done..|].
    destruct Hwf as [Hnames Hcwd]. split; [|done]. cbn.
    apply wf_names_insert; [done|]. by constructor.
Qed.

Lemma handlers_keep_names_witness :
  wf (fs (upload_audio allow_list Sample.escaping (Sample.quiet Sample.stocked)).1)
  ∧ wf (fs (health_check (Sample.quiet Sample.stocked)).1)
  ∧ wf (fs (list_files (Sample.quiet Sample.stocked)).1)
  ∧ wf (fs (startup (Sample.quiet Sample.stocked)).1).
Proof.
  apply (handlers_keep_names allow_list Sample.escaping (Sample.quiet Sample.stocked)).
  split; [vm_compute; reflexivity|repeat constructor].
Defined.
